(** * Pdf-Annotation-Detector: the annotation editor, embedded and verified

    A shallow embedding of [annotation_editor.py]: the dataclasses
    ([Position], [Formatting], [DataReference], [Annotation], [Pages],
    [UpdateField]) and the synchronizer [AnnotationForm] with its document
    handle life cycle (extraction, widget lookup, field update, bulk update
    from an imported JSON tree, export, save).

    Python values that reach the code untyped (parsed JSON, update payloads)
    are modelled by [pyval]; dicts are [gmap string pyval].  Methods that
    mutate [self] or the PDF engine are state-passing functions over a
    [Session] and end in [Returns] or [Raises], both carrying the state at
    that point, since nothing is rolled back when an exception propagates. *)

From Stdlib Require Import ZArith QArith String List Sorted Lia.
From stdpp Require Import base gmap strings list fin_maps pretty.

Set Warnings "-register-all".
Local Open Scope Z_scope.
Local Open Scope string_scope.

(** ** Python values *)

Inductive pyval :=
| PNone
| PBool (b : bool)
| PInt (z : Z)
| PStr (s : string)
| PList (l : list pyval)
| PDict (d : gmap string pyval).

Inductive exn :=
| TypeError
| AttributeError
| ValueError
| IndexError
| OverflowError
| FileDataError
| Exception (msg : string).

(** Result of an expression that may raise but touches no state. *)
Inductive res (A : Type) : Type :=
| Ok (a : A)
| Err (e : exn).
Arguments Ok {A} a.
Arguments Err {A} e.

Definition res_bind {A B} (r : res A) (k : A -> res B) : res B :=
  match r with
  | Ok a => k a
  | Err e => Err e
  end.

Notation "'try!' x ':=' r 'in' k" := (res_bind r (fun x => k))
  (at level 10, x name, r at level 100, k at level 200).

(** [bool(v)]: None, False, 0, the empty string, list and dict are falsy. *)
Definition truthy (v : pyval) : bool :=
  match v with
  | PNone => false
  | PBool b => b
  | PInt z => negb (Z.eqb z 0)
  | PStr s => negb (String.eqb s "")
  | PList l => match l with [] => false | _ :: _ => true end
  | PDict d => negb (bool_decide (dom d = (∅ : gset string)))
  end.

(** [v.get(key)]: only a dict has [get]; a missing key gives [None]. *)
Definition py_get (v : pyval) (key : string) : res pyval :=
  match v with
  | PDict d => Ok (default PNone (d !! key))
  | _ => Err AttributeError
  end.

(** [d.get(key)] on a value known to be a dict. *)
Definition dict_get (d : gmap string pyval) (key : string) : pyval :=
  default PNone (d !! key).

Fixpoint chars (s : string) : list pyval :=
  match s with
  | EmptyString => []
  | String c s' => PStr (String c EmptyString) :: chars s'
  end.

(** [for x in v]: lists yield their items, dicts their keys, strings their
    characters; anything else is not iterable.  (The order of dict keys is
    the map's, not insertion order: the code below calls [.get] on every
    item it iterates, which raises on the first key whatever the order.) *)
Definition py_iter (v : pyval) : res (list pyval) :=
  match v with
  | PList l => Ok l
  | PDict d => Ok (PStr <$> (map_to_list d).*1)
  | PStr s => Ok (chars s)
  | _ => Err TypeError
  end.

(** A Python number usable in integer arithmetic ([bool] is an [int]).
    JSON floats are outside this model. *)
Definition py_num (v : pyval) : option Z :=
  match v with
  | PInt z => Some z
  | PBool b => Some (Z.b2z b)
  | _ => None
  end.

(** [s or d] for an optional string: [None] and the empty string are falsy. *)
Definition str_or (o : option string) (d : string) : string :=
  match o with
  | Some s => if String.eqb s "" then d else s
  | None => d
  end.

Definition opt_to_py (o : option string) : pyval :=
  match o with
  | Some s => PStr s
  | None => PNone
  end.

(** ** Floats of the PDF engine

    Rectangle coordinates are Python floats.  A finite float is modelled by
    the rational it denotes (subtraction is exact here, rounding is not
    modelled); [NonFinite] stands for inf and nan, on which [int()] raises. *)

Inductive pyfloat :=
| Finite (q : Q)
| NonFinite.

Definition float_sub (a b : pyfloat) : pyfloat :=
  match a, b with
  | Finite p, Finite q => Finite (p - q)%Q
  | _, _ => NonFinite
  end.

(** [int(f)]: truncation toward zero. *)
Definition py_int (f : pyfloat) : res Z :=
  match f with
  | Finite q => Ok (Z.quot (Qnum q) (Zpos (Qden q)))
  | NonFinite => Err ValueError
  end.

Definition of_int (z : Z) : pyfloat := Finite (inject_Z z).

(** ** The dataclasses (lines 6-62) *)

Module Position.
Record t := mk {
  x : pyval;
  y : pyval;
  width : pyval;
  height : pyval;
  unit : pyval }.

Definition fields : gset string := {[ "x"; "y"; "width"; "height"; "unit" ]}.

(** [Position] called with the keywords of [pos]: no field has a default,
    so every one of the five keywords is required, and no other keyword is
    accepted. *)
Definition of_kwargs (pos : gmap string pyval) : res t :=
  if bool_decide (dom pos = fields) then
    Ok (mk (dict_get pos "x") (dict_get pos "y") (dict_get pos "width")
           (dict_get pos "height") (dict_get pos "unit"))
  else Err TypeError.
End Position.

Module Formatting.
Record t := mk {
  font_size : pyval;
  font_family : pyval;
  alignment : pyval;
  max_length : pyval;
  pattern : pyval;
  required : pyval }.

Definition fields : gset string :=
  {[ "font_size"; "font_family"; "alignment"; "max_length"; "pattern"; "required" ]}.

(** [Formatting] called with the keywords of [fmt]: every field defaults
    to [None]; an unknown keyword is a [TypeError]. *)
Definition of_kwargs (fmt : gmap string pyval) : res t :=
  if bool_decide (dom fmt ⊆ fields) then
    Ok (mk (dict_get fmt "font_size") (dict_get fmt "font_family")
           (dict_get fmt "alignment") (dict_get fmt "max_length")
           (dict_get fmt "pattern") (dict_get fmt "required"))
  else Err TypeError.
End Formatting.

Module DataReference.
Record t := mk {
  path : string;
  default_value : option string }.
End DataReference.

Module Annotation.
Record t := mk {
  id : string;
  type : string;
  position : Position.t;
  formatting : Formatting.t;
  data_reference : DataReference.t;
  label : option string }.
End Annotation.

Module Pages.
Record t := mk {
  page_number : Z;
  annotations : list Annotation.t }.
End Pages.

Module UpdateField.
Record t := mk {
  default_value : pyval;
  label : pyval;
  position : option Position.t;
  formatting : option Formatting.t }.

(** [Position(...) if pos else None]; keyword expansion needs a mapping. *)
Definition position_of (pos : pyval) : res (option Position.t) :=
  if truthy pos then
    match pos with
    | PDict d => try! p := Position.of_kwargs d in Ok (Some p)
    | _ => Err TypeError
    end
  else Ok None.

Definition formatting_of (fmt : pyval) : res (option Formatting.t) :=
  if truthy fmt then
    match fmt with
    | PDict d => try! f := Formatting.of_kwargs d in Ok (Some f)
    | _ => Err TypeError
    end
  else Ok None.

(** Lines 52-62. *)
Definition from_dict (data : gmap string pyval) : res t :=
  let pos := dict_get data "position" in
  let fmt := dict_get data "formatting" in
  try! position := position_of pos in
  try! formatting := formatting_of fmt in
  Ok (mk (dict_get data "default_value") (dict_get data "label")
         position formatting).
End UpdateField.

(** ** The PDF engine (PyMuPDF), as far as the editor uses it

    A document is a sequence of pages, a page a sequence of widgets in the
    order [page.widgets()] enumerates them.  A widget attribute assigned and
    then committed with [widget.update()] is stored in the document.  A page
    that cannot be loaded makes [doc[i]] raise.  A document object has the
    page count as its length, which is also its truth value, and a closed
    document raises when asked for it.  Field value, label and font name are
    strings or [None], the font size an integer.  The engine validates
    nothing else here: how it renders, or rejects degenerate rectangles and
    unknown fonts, is outside the model, and so are failures of the file
    system on writing. *)

Module fitz.
Record Rect := mkRect {
  x0 : pyfloat;
  y0 : pyfloat;
  x1 : pyfloat;
  y1 : pyfloat }.

Record Widget := mkWidget {
  field_name : option string;
  field_type_string : option string;
  field_value : option string;
  field_label : option string;
  rect : Rect;
  text_fontsize : Z;
  text_font : option string }.

Inductive Page :=
| GoodPage (ws : list Widget)
| BadPage.

Record Document := mkDocument {
  doc_pages : list Page;
  is_closed : bool }.

(** [len(doc)] is the page count; it raises on a closed document. *)
Definition len (d : Document) : res nat :=
  if is_closed d then Err ValueError else Ok (length (doc_pages d)).

(** [doc[i]] followed by [page.widgets()]: the page's position in the
    document and its widgets.  An index at or beyond the page count is an
    [IndexError]; a negative one counts from the end, modulo the page
    count (on an empty document the engine has no answer for a negative
    index: that is returned as an [IndexError] as well). *)
Definition getitem (d : Document) (i : Z) : res (nat * list Widget) :=
  if is_closed d then Err ValueError else
  let n := Z.of_nat (length (doc_pages d)) in
  if Z.leb n i then Err IndexError
  else if Z.eqb n 0 then Err IndexError
  else
    let k := Z.to_nat (i mod n) in
    match doc_pages d !! k with
    | Some (GoodPage ws) => Ok (k, ws)
    | Some BadPage => Err FileDataError
    | None => Err IndexError
    end.

Definition set_field_value (v : option string) (w : Widget) : Widget :=
  mkWidget (field_name w) (field_type_string w) v (field_label w)
           (rect w) (text_fontsize w) (text_font w).
Definition set_field_label (v : option string) (w : Widget) : Widget :=
  mkWidget (field_name w) (field_type_string w) (field_value w) v
           (rect w) (text_fontsize w) (text_font w).
Definition set_rect (r : Rect) (w : Widget) : Widget :=
  mkWidget (field_name w) (field_type_string w) (field_value w) (field_label w)
           r (text_fontsize w) (text_font w).
Definition set_text_fontsize (z : Z) (w : Widget) : Widget :=
  mkWidget (field_name w) (field_type_string w) (field_value w) (field_label w)
           (rect w) z (text_font w).
Definition set_text_font (v : option string) (w : Widget) : Widget :=
  mkWidget (field_name w) (field_type_string w) (field_value w) (field_label w)
           (rect w) (text_fontsize w) v.

(** What [widget.update()] leaves in the document: the widget at position
    [wi] of page [pi] is replaced by the committed one. *)
Definition store (pi wi : nat) (w : Widget) (d : Document) : Document :=
  match doc_pages d !! pi with
  | Some (GoodPage ws) =>
      mkDocument (<[pi := GoodPage (<[wi := w]> ws)]> (doc_pages d)) (is_closed d)
  | _ => d
  end.

Definition close (d : Document) : Document := mkDocument (doc_pages d) true.
End fitz.

(** The world outside the process: the files on disk and the number of
    engine documents currently open (acquired by [fitz.open], released by
    [doc.close()]). *)
Inductive file :=
| PdfFile (pages : list fitz.Page)
| JsonFile (v : pyval).

Record World := mkWorld {
  disk : gmap string file;
  open_handles : nat }.

Definition fitz_open (path : string) (w : World) : res (fitz.Document * World) :=
  match disk w !! path with
  | Some (PdfFile ps) =>
      Ok (fitz.mkDocument ps false, mkWorld (disk w) (S (open_handles w)))
  | _ => Err FileDataError
  end.

Definition release (w : World) : World :=
  mkWorld (disk w) (Nat.pred (open_handles w)).

Definition write_file (path : string) (f : file) (w : World) : World :=
  mkWorld (<[path := f]> (disk w)) (open_handles w).

(** [json.load(open(json_path))]. *)
Definition read_json (path : string) (w : World) : res pyval :=
  match disk w !! path with
  | Some (JsonFile v) => Ok v
  | Some (PdfFile _) => Err ValueError
  | None => Err (Exception "No such file or directory")
  end.

(** ** AnnotationForm (lines 64-355) *)

Module AnnotationForm.
Record t := mk {
  pdf_path : string;
  name : string;
  year : Z;
  version : string;
  doc : option fitz.Document;
  pages : list Pages.t }.

Definition set_doc (d : option fitz.Document) (self : t) : t :=
  mk (pdf_path self) (name self) (year self) (version self) d (pages self).
Definition set_pages (ps : list Pages.t) (self : t) : t :=
  mk (pdf_path self) (name self) (year self) (version self) (doc self) ps.
End AnnotationForm.

Definition Session : Type := AnnotationForm.t * World.

Inductive outcome (A : Type) : Type :=
| Returns (a : A) (st : Session)
| Raises (e : exn) (st : Session).
Arguments Returns {A} a st.
Arguments Raises {A} e st.

Definition state_of {A} (o : outcome A) : Session :=
  match o with
  | Returns _ st => st
  | Raises _ st => st
  end.

Definition M (A : Type) : Type := Session -> outcome A.

(** A [for] loop whose body may mutate the session or raise. *)
Fixpoint for_each {A} (l : list A) (body : A -> M unit) : M unit :=
  fun st =>
    match l with
    | [] => Returns tt st
    | a :: rest =>
        match body a st with
        | Returns _ st' => for_each rest body st'
        | Raises e st' => Raises e st'
        end
    end.

(** *** Extraction (lines 74-142) *)

(** [__map_pymupdf_field_type]: [mapping.get(field_type, "text")]. *)
Definition map_pymupdf_field_type (field_type : string) : string :=
  let mapping : gmap string string :=
    {[ "Text" := "text"; "CheckBox" := "checkbox"; "RadioButton" := "radio";
       "ComboBox" := "dropdown"; "ListBox" := "list"; "Signature" := "signature" ]} in
  default "text" (mapping !! field_type).

Definition default_formatting : Formatting.t :=
  Formatting.mk (PInt 8) (PStr "Arial") (PStr "left") (PInt 100) (PStr "") (PBool false).

(** The body of the per-widget [try] (lines 89-114); [n] is
    [len(annotations)] at that point.  [Err] is the exception the [except]
    clause swallows. *)
Definition extract_widget (n : nat) (widget : fitz.Widget) : res Annotation.t :=
  let field_name := str_or (fitz.field_name widget) ("field_" +:+ pretty n) in
  let field_type := str_or (fitz.field_type_string widget) "" in
  let field_value := str_or (fitz.field_value widget) "" in
  let field_label := fitz.field_label widget in
  let rect := fitz.rect widget in
  try! x := py_int (fitz.x0 rect) in
  try! y := py_int (fitz.y0 rect) in
  try! width := py_int (float_sub (fitz.x1 rect) (fitz.x0 rect)) in
  try! height := py_int (float_sub (fitz.y1 rect) (fitz.y0 rect)) in
  let position := Position.mk (PInt x) (PInt y) (PInt width) (PInt height) (PStr "pt") in
  let annotation_type := map_pymupdf_field_type field_type in
  Ok (Annotation.mk field_name annotation_type position default_formatting
        (DataReference.mk field_name (Some field_value)) field_label).

(** The widget loop (lines 87-119): a widget that raises is skipped. *)
Fixpoint walk_widgets (widgets : list fitz.Widget) (annotations : list Annotation.t)
  : list Annotation.t :=
  match widgets with
  | [] => annotations
  | widget :: rest =>
      match extract_widget (length annotations) widget with
      | Ok annotation => walk_widgets rest (annotations ++ [annotation])
      | Err _ => walk_widgets rest annotations
      end
  end.

(** The page loop (lines 79-123) from index [page_num] on, over the pages
    still to visit; the result is [self.pages] when the loop stops and the
    exception that stopped it, if any. *)
Fixpoint walk_pages (page_num : nat) (todo : list fitz.Page) (self_pages : list Pages.t)
  : list Pages.t * option exn :=
  match todo with
  | [] => (self_pages, None)
  | fitz.BadPage :: _ => (self_pages, Some FileDataError)
  | fitz.GoodPage widgets :: rest =>
      let annotations := walk_widgets widgets [] in
      match annotations with
      | [] => walk_pages (S page_num) rest self_pages
      | _ :: _ =>
          let page_obj := Pages.mk (Z.of_nat page_num + 1) annotations in
          walk_pages (S page_num) rest (self_pages ++ [page_obj])
      end
  end.

Import AnnotationForm.

(** [__read_pdf]: the handle is closed and dropped after the loop (lines
    125-126); the [except] clause (lines 128-130) only reports and
    re-raises. *)
Definition read_pdf : M unit := fun '(self, w) =>
  match fitz_open (pdf_path self) w with
  | Err e => Raises e (self, w)
  | Ok (doc, w1) =>
      let self1 := set_doc (Some doc) self in
      let '(pgs, stopped) := walk_pages 0 (fitz.doc_pages doc) (pages self1) in
      let self2 := set_pages pgs self1 in
      match stopped with
      | Some e => Raises e (self2, w1)
      | None => Returns tt (set_doc None self2, release w1)
      end
  end.

(** [AnnotationForm(pdf_path, name, year, version)] (lines 65-72). *)
Definition init (pdf_path name : string) (year : Z) (version : string) (w : World)
  : outcome unit :=
  read_pdf (AnnotationForm.mk pdf_path name year version None [], w).

(** *** Export (lines 158-207)

    The value handed to [json.dumps]; rendering it as text and parsing it
    back is the [json] library's job and is the identity on such values. *)

Definition export_annotation (ann : Annotation.t) : pyval :=
  let pos := Annotation.position ann in
  let fmt := Annotation.formatting ann in
  let ref := Annotation.data_reference ann in
  PDict {[
    "id" := PStr (Annotation.id ann);
    "type" := PStr (Annotation.type ann);
    "label" := opt_to_py (Annotation.label ann);
    "position" := PDict {[
      "x" := Position.x pos; "y" := Position.y pos;
      "width" := Position.width pos; "height" := Position.height pos;
      "unit" := Position.unit pos ]};
    "formatting" := PDict {[
      "font_size" := Formatting.font_size fmt;
      "font_family" := Formatting.font_family fmt;
      "alignment" := Formatting.alignment fmt;
      "max_length" := Formatting.max_length fmt;
      "pattern" := Formatting.pattern fmt;
      "required" := Formatting.required fmt ]};
    "data_reference" := PDict {[
      "path" := PStr (DataReference.path ref);
      "default_value" := opt_to_py (DataReference.default_value ref) ]} ]}.

Definition export_page (page : Pages.t) : pyval :=
  PDict {[
    "page_number" := PInt (Pages.page_number page);
    "annotations" := PList (export_annotation <$> Pages.annotations page) ]}.

Definition export_to_json (self : AnnotationForm.t) : pyval :=
  PDict {[
    "pdf_info" := PDict {[
      "name" := PStr (name self); "year" := PInt (year self);
      "version" := PStr (version self); "path" := PStr (pdf_path self) ]};
    "pages" := PList (export_page <$> pages self) ]}.

(** *** Widget lookup (lines 209-223): first match in widget order, with
    the position of the match on the page. *)

Fixpoint find_widget_by_annotation_id (widgets : list fitz.Widget) (annotation_id : string)
  : option (nat * fitz.Widget) :=
  match widgets with
  | [] => None
  | widget :: rest =>
      if bool_decide (fitz.field_name widget = Some annotation_id) then Some (O, widget)
      else prod_map S id <$> find_widget_by_annotation_id rest annotation_id
  end.

Fixpoint find_widget_by_label (widgets : list fitz.Widget) (label : string)
  : option (nat * fitz.Widget) :=
  match widgets with
  | [] => None
  | widget :: rest =>
      if bool_decide (fitz.field_label widget = Some label) then Some (O, widget)
      else prod_map S id <$> find_widget_by_label rest label
  end.

(** *** Field update (lines 225-315) *)

(** [if not self.doc: self.doc = fitz.open(self.pdf_path)] followed by
    [doc = self.doc] (lines 228-231).  [None] is falsy; a document object is
    falsy when [len(doc)] is zero, and asking a closed document for its
    length raises. *)
Definition reopen : M fitz.Document := fun '(self, w) =>
  match fitz_open (pdf_path self) w with
  | Err e => Raises e (self, w)
  | Ok (d, w1) => Returns d (set_doc (Some d) self, w1)
  end.

Definition ensure_open : M fitz.Document := fun '(self, w) =>
  match doc self with
  | None => reopen (self, w)
  | Some d =>
      match fitz.len d with
      | Err e => Raises e (self, w)
      | Ok O => reopen (self, w)
      | Ok (S _) => Returns d (self, w)
      end
  end.

(** [page_number - 1]. *)
Definition page_index (page_number : pyval) : res Z :=
  match py_num page_number with
  | Some n => Ok (n - 1)
  | None => Err TypeError
  end.

(** The payload is an [UpdateField] or a dict (lines 239-240). *)
Definition normalize (field_value : UpdateField.t + gmap string pyval) : res UpdateField.t :=
  match field_value with
  | inl u => Ok u
  | inr data => UpdateField.from_dict data
  end.

(** The four guarded assignments (lines 243-264), each on the widget object
    as the previous step left it.  The engine stores a string as value,
    label and font name and an integer as font size; another truthy Python
    value makes the assignment's commit raise. *)
Definition assign_value (u : UpdateField.t) (widget : fitz.Widget) : res fitz.Widget :=
  if truthy (UpdateField.default_value u) then
    match UpdateField.default_value u with
    | PStr s => Ok (fitz.set_field_value (Some s) widget)
    | _ => Err TypeError
    end
  else Ok widget.

Definition assign_rect (u : UpdateField.t) (widget : fitz.Widget) : res fitz.Widget :=
  match UpdateField.position u with
  | Some pos =>
      match py_num (Position.x pos), py_num (Position.y pos),
            py_num (Position.width pos), py_num (Position.height pos) with
      | Some x, Some y, Some width, Some height =>
          let new_rect := fitz.mkRect (of_int x) (of_int y)
                                      (of_int (x + width)) (of_int (y + height)) in
          Ok (fitz.set_rect new_rect widget)
      | _, _, _, _ => Err TypeError
      end
  | None => Ok widget
  end.

Definition assign_formatting (u : UpdateField.t) (widget : fitz.Widget) : res fitz.Widget :=
  match UpdateField.formatting u with
  | Some fmt =>
      try! w1 :=
        (if truthy (Formatting.font_size fmt) then
           match py_num (Formatting.font_size fmt) with
           | Some z => Ok (fitz.set_text_fontsize z widget)
           | None => Err TypeError
           end
         else Ok widget) in
      if truthy (Formatting.font_family fmt) then
        match Formatting.font_family fmt with
        | PStr s => Ok (fitz.set_text_font (Some s) w1)
        | _ => Err TypeError
        end
      else Ok w1
  | None => Ok widget
  end.

Definition assign_label (u : UpdateField.t) (widget : fitz.Widget) : res fitz.Widget :=
  if truthy (UpdateField.label u) then
    match UpdateField.label u with
    | PStr s => Ok (fitz.set_field_label (Some s) widget)
    | _ => Err TypeError
    end
  else Ok widget.

(** The steps in order; the result is the widget as last committed and the
    exception that cut the sequence short, if any: what was committed
    before it stays. *)
Definition apply_update (u : UpdateField.t) (widget : fitz.Widget)
  : fitz.Widget * option exn :=
  match assign_value u widget with
  | Err e => (widget, Some e)
  | Ok w1 =>
      match assign_rect u w1 with
      | Err e => (w1, Some e)
      | Ok w2 =>
          match assign_formatting u w2 with
          | Err e => (w2, Some e)
          | Ok w3 =>
              match assign_label u w3 with
              | Err e => (w3, Some e)
              | Ok w4 => (w4, None)
              end
          end
      end
  end.

Definition commit (pi wi : nat) (widget : fitz.Widget) (st : Session) : Session :=
  (set_doc (fitz.store pi wi widget <$> doc st.1) st.1, st.2).

(** The body shared, line for line, by the two update methods; [find] is
    the lookup and [missing] the message of the exception raised when it
    finds nothing. *)
Definition update_field (find : list fitz.Widget -> option (nat * fitz.Widget))
    (missing : string) (page_number : pyval)
    (field_value : UpdateField.t + gmap string pyval) : M bool := fun st =>
  match ensure_open st with
  | Raises e st1 => Raises e st1
  | Returns doc st1 =>
      match (try! i := page_index page_number in
             try! page := fitz.getitem doc i in
             try! hit := match find page.2 with
                         | Some hit => Ok hit
                         | None => Err (Exception missing)
                         end in
             try! u := normalize field_value in
             Ok (page.1, hit, u)) with
      | Err e => Raises e st1
      | Ok (pi, (wi, widget), u) =>
          let '(committed, stopped) := apply_update u widget in
          let st2 := commit pi wi committed st1 in
          match stopped with
          | Some e => Raises e st2
          | None => Returns true st2
          end
      end
  end.

Definition update_field_by_anotation_id_and_page_number (annotation_id : string)
    (page_number : pyval) (field_value : UpdateField.t + gmap string pyval) : M bool :=
  update_field (fun ws => find_widget_by_annotation_id ws annotation_id)
    ("Widget with annotation id " +:+ annotation_id +:+ " not found")
    page_number field_value.

Definition update_field_by_label_and_page_number (label : string)
    (page_number : pyval) (field_value : UpdateField.t + gmap string pyval) : M bool :=
  update_field (fun ws => find_widget_by_label ws label)
    ("Widget with label " +:+ label +:+ " not found")
    page_number field_value.

(** *** Bulk update (lines 317-348) *)

(** [ann.id == new_ann.get("id")]: a string equals only the same string. *)
Definition id_matches (ann_id : string) (v : pyval) : bool :=
  match v with
  | PStr s => String.eqb ann_id s
  | _ => false
  end.

(** The dict built at lines 332-337. *)
Definition update_body (new_ann : pyval) : res (gmap string pyval) :=
  try! ref := py_get new_ann "data_reference" in
  try! default_value := py_get ref "default_value" in
  try! label := py_get new_ann "label" in
  try! position := py_get new_ann "position" in
  try! formatting := py_get new_ann "formatting" in
  Ok {[ "default_value" := default_value; "label" := label;
        "position" := position; "formatting" := formatting ]}.

(** Lines 330-342 for one imported page. *)
Definition scan_page (ann : Annotation.t) (page : pyval) : M unit := fun st =>
  match (try! anns := py_get page "annotations" in py_iter anns) with
  | Err e => Raises e st
  | Ok new_anns =>
      for_each new_anns (fun new_ann st =>
        match py_get new_ann "id" with
        | Err e => Raises e st
        | Ok new_id =>
            if id_matches (Annotation.id ann) new_id then
              match (try! body := update_body new_ann in
                     try! page_number := py_get page "page_number" in
                     Ok (body, page_number)) with
              | Err e => Raises e st
              | Ok (body, page_number) =>
                  match update_field_by_anotation_id_and_page_number
                          (Annotation.id ann) page_number (inr body) st with
                  | Returns _ st' => Returns tt st'
                  | Raises e st' => Raises e st'
                  end
              end
            else Returns tt st
        end) st
  end.

(** Lines 329-342 for one live annotation. *)
Definition scan_import (updated_annotations_json : pyval) (ann : Annotation.t)
  : M unit := fun st =>
  match (try! ps := py_get updated_annotations_json "pages" in py_iter ps) with
  | Err e => Raises e st
  | Ok imported_pages => for_each imported_pages (scan_page ann) st
  end.

Definition load_updated_annotaion_json (json_path : string) : M bool := fun st =>
  match read_json json_path st.2 with
  | Err e => Raises e st
  | Ok updated_annotations_json =>
      match py_get updated_annotations_json "pages" with
      | Err e => Raises e st
      | Ok ps =>
          if negb (truthy ps) then Raises (Exception "Invalid updated annotation json") st
          else
            match for_each (pages st.1) (fun page =>
                    for_each (Pages.annotations page)
                             (scan_import updated_annotations_json)) st with
            | Returns _ st' => Returns true st'
            | Raises e st' => Raises e st'
            end
      end
  end.

(** *** Persistence (lines 350-354): the handle is saved and closed, and
    [self.doc] keeps referring to it. *)
Definition save_pdf (output_path : option string) : M unit := fun '(self, w) =>
  match doc self with
  | Some d =>
      if fitz.is_closed d then Raises ValueError (self, w)
      else
        let w1 := write_file (str_or output_path "output.pdf") (PdfFile (fitz.doc_pages d)) w in
        Returns tt (set_doc (Some (fitz.close d)) self, release w1)
  | None => Returns tt (self, w)
  end.

(** ** Definitions used to state the properties *)

(** A caller's update requests, by id or by label. *)
Inductive update_call :=
| ById (annotation_id : string) (page_number : pyval)
       (field_value : UpdateField.t + gmap string pyval)
| ByLabel (label : string) (page_number : pyval)
          (field_value : UpdateField.t + gmap string pyval).

Definition run_call (c : update_call) : M bool :=
  match c with
  | ById i n v => update_field_by_anotation_id_and_page_number i n v
  | ByLabel l n v => update_field_by_label_and_page_number l n v
  end.

(** A sequence of update calls, each started in the state the previous one
    left, whether it returned or raised. *)
Fixpoint run_calls (cs : list update_call) (st : Session) : Session :=
  match cs with
  | [] => st
  | c :: rest => run_calls rest (state_of (run_call c st))
  end.

(** A session whose handle is open on the pages [ps]. *)
Definition open_session (pdf_path name : string) (year : Z) (version : string)
    (ps : list fitz.Page) (tree : list Pages.t) (w : World) : Session :=
  (AnnotationForm.mk pdf_path name year version (Some (fitz.mkDocument ps false)) tree, w).

(** The same session once [save_pdf] has written [ps] to [out]. *)
Definition saved_session (pdf_path name : string) (year : Z) (version : string)
    (ps : list fitz.Page) (tree : list Pages.t) (w : World) (out : option string) : Session :=
  (AnnotationForm.mk pdf_path name year version (Some (fitz.mkDocument ps true)) tree,
   release (write_file (str_or out "output.pdf") (PdfFile ps) w)).

Definition loadable (p : fitz.Page) : bool :=
  match p with
  | fitz.GoodPage _ => true
  | fitz.BadPage => false
  end.

(** A text field as on the first page of a tax form, and a document whose
    second page cannot be loaded. *)
Definition sample_widget : fitz.Widget :=
  fitz.mkWidget (Some "f1_01") (Some "Text") (Some "Jan") (Some "month")
    (fitz.mkRect (of_int 226) (of_int 62) (of_int 302) (of_int 74)) 12 (Some "Helv").

Definition broken_world : World :=
  mkWorld {[ "broken.pdf" := PdfFile [fitz.GoodPage [sample_widget]; fitz.BadPage] ]} 0.



(** The field values held by the document behind the handle, page by page
    and widget by widget. *)
Definition page_values (p : fitz.Page) : option (list (option string)) :=
  match p with
  | fitz.GoodPage ws => Some (fitz.field_value <$> ws)
  | fitz.BadPage => None
  end.

Definition field_values (st : Session) : option (list (option (list (option string)))) :=
  (fun d => page_values <$> fitz.doc_pages d) <$> doc st.1.

(** What [export_to_json] reads of [self]. *)
Definition exported_part (self : AnnotationForm.t)
  : string * string * Z * string * list Pages.t :=
  (pdf_path self, name self, year self, version self, pages self).

(** A lookup returns a widget together with its position on the page. *)
Definition finds_in_place (find : list fitz.Widget -> option (nat * fitz.Widget)) : Prop :=
  forall ws wi widget, find ws = Some (wi, widget) -> ws !! wi = Some widget.

(** A widget whose extraction does not raise. *)
Definition extracts (widget : fitz.Widget) : bool :=
  match extract_widget 0 widget with
  | Ok _ => true
  | Err _ => false
  end.

(** The tree [tree] lists the pages [ps] of a document in order: page
    numbers ascend; page [i] (counted from 0) has an entry, numbered
    [i + 1], exactly when at least one of its widgets is extracted; and the
    annotations of an entry are the extracted widgets of its page in the
    engine's order, the [j]-th annotation coming from the [j]-th of them. *)
Definition extraction_order (ps : list fitz.Page) (tree : list Pages.t) : Prop :=
  StronglySorted Z.lt (Pages.page_number <$> tree)
  /\ (forall i ws, ps !! i = Some (fitz.GoodPage ws) ->
        (0 < length (List.filter extracts ws))%nat
        <-> exists P, P ∈ tree /\ Pages.page_number P = Z.of_nat i + 1)
  /\ (forall P, P ∈ tree ->
        exists i ws,
          ps !! i = Some (fitz.GoodPage ws)
          /\ Pages.page_number P = Z.of_nat i + 1
          /\ length (Pages.annotations P) = length (List.filter extracts ws)
          /\ forall j widget,
               List.filter extracts ws !! j = Some widget ->
               exists a, Pages.annotations P !! j = Some a
                         /\ extract_widget j widget = Ok a).

(** A two-page document: a text field on the first page, no field on the
    second. *)
Definition sample_world : World :=
  mkWorld {[ "f1040.pdf" := PdfFile [fitz.GoodPage [sample_widget]; fitz.GoodPage []] ]} 0.



Definition int_rect (a b c d : Z) : fitz.Rect :=
  fitz.mkRect (of_int a) (of_int b) (of_int c) (of_int d).


(** A second text field, set in 9 point type, whose rectangle starts and
    ends half a point off the integer grid, and a one-page form holding
    both fields. *)
Definition offset_widget : fitz.Widget :=
  fitz.mkWidget (Some "f1_02") (Some "Text") (Some "2024") None
    (fitz.mkRect (Finite (21 # 2)) (of_int 20) (Finite (221 # 2)) (of_int 32))
    9 (Some "Helv").


(** *** The bulk update as a list of single-field updates *)

(** [v[key]] read leniently: [None] when [v] is not a dict or lacks it. *)
Definition field (v : pyval) (key : string) : pyval :=
  match v with
  | PDict d => dict_get d key
  | _ => PNone
  end.

Definition items (v : pyval) : list pyval :=
  match v with
  | PList l => l
  | _ => []
  end.

Definition imported_pages (json : pyval) : list pyval := items (field json "pages").

Definition imported_annotations (page : pyval) : list pyval :=
  items (field page "annotations").

(** The shape of the export schema that the bulk update relies on: an
    object with a [pages] array of objects, each with an [annotations] array
    of objects that have a [data_reference] object. *)
Definition annotation_conforms (new_ann : pyval) : bool :=
  match new_ann with
  | PDict d => match d !! "data_reference" with Some (PDict _) => true | _ => false end
  | _ => false
  end.

Definition page_conforms (page : pyval) : bool :=
  match page with
  | PDict d =>
      match d !! "annotations" with
      | Some (PList anns) => forallb annotation_conforms anns
      | _ => false
      end
  | _ => false
  end.

Definition conforms (json : pyval) : bool :=
  match json with
  | PDict top =>
      match top !! "pages" with
      | Some (PList ps) => forallb page_conforms ps
      | _ => false
      end
  | _ => false
  end.

(** One single-field update by id: the id, the page number and the payload
    it is called with. *)
Record bulk_call := mk_call {
  call_id : string;
  call_page_number : pyval;
  call_body : gmap string pyval }.

(** The payload built from an imported annotation: its
    [data_reference.default_value], [label], [position] and [formatting]. *)
Definition imported_body (new_ann : pyval) : gmap string pyval :=
  {[ "default_value" := field (field new_ann "data_reference") "default_value";
     "label" := field new_ann "label";
     "position" := field new_ann "position";
     "formatting" := field new_ann "formatting" ]}.

(** For one live annotation: every imported annotation with the same id, on
    whatever imported page it is, gives one call, with that imported page's
    number. *)
Definition page_matches (ann : Annotation.t) (page : pyval) : list bulk_call :=
  new_ann ← imported_annotations page;
  if id_matches (Annotation.id ann) (field new_ann "id")
  then [mk_call (Annotation.id ann) (field page "page_number") (imported_body new_ann)]
  else [].

Definition matches_of (json : pyval) (ann : Annotation.t) : list bulk_call :=
  page ← imported_pages json; page_matches ann page.

Definition bulk_calls (tree : list Pages.t) (json : pyval) : list bulk_call :=
  page ← tree; ann ← Pages.annotations page; matches_of json ann.

(** The calls made one after the other; the first that raises ends the
    batch. *)
Fixpoint apply_calls (cs : list bulk_call) : M bool := fun st =>
  match cs with
  | [] => Returns true st
  | c :: rest =>
      match update_field_by_anotation_id_and_page_number
              (call_id c) (call_page_number c) (inr (call_body c)) st with
      | Returns _ st' => apply_calls rest st'
      | Raises e st' => Raises e st'
      end
  end.

(** The result of a loop as the result of the method that ends with
    [return True] after it. *)
Definition finish (o : outcome unit) : outcome bool :=
  match o with
  | Returns _ st => Returns true st
  | Raises e st => Raises e st
  end.

(** What the bulk update does with a conforming import: the calls of
    [bulk_calls], in that order; and which calls these are. *)
Definition bulk_update_by_id (json_path : string) (json : pyval) (st : Session) : Prop :=
  load_updated_annotaion_json json_path st
  = apply_calls (bulk_calls (pages st.1) json) st
  /\ forall c,
       c ∈ bulk_calls (pages st.1) json <->
       exists page ann imported_page new_ann,
         page ∈ pages st.1
         /\ ann ∈ Pages.annotations page
         /\ imported_page ∈ imported_pages json
         /\ new_ann ∈ imported_annotations imported_page
         /\ field new_ann "id" = PStr (Annotation.id ann)
         /\ c = mk_call (Annotation.id ann) (field imported_page "page_number")
                        (imported_body new_ann).

(** The session built from the sample document, with [json] on disk as
    [updated.json]. *)
Definition sample_session (json : pyval) : Session :=
  state_of (init "f1040.pdf" "f1040" 2024 "2024"
              (write_file "updated.json" (JsonFile json) sample_world)).

(** Two imports for the sample document: one lists the field of page 1
    under page 2, the other lists a field the document does not have. *)
Definition moved_import : pyval :=
  PDict {[ "pages" := PList [
    PDict {[ "page_number" := PInt 2;
             "annotations" := PList [
               PDict {[ "id" := PStr "f1_01"; "label" := PStr "month";
                        "data_reference" := PDict {[ "path" := PStr "f1_01";
                                                     "default_value" := PStr "Feb" ]} ]} ] ]} ] ]}.

Definition other_import : pyval :=
  PDict {[ "pages" := PList [
    PDict {[ "page_number" := PInt 1;
             "annotations" := PList [
               PDict {[ "id" := PStr "f9_99"; "label" := PStr "year";
                        "data_reference" := PDict {[ "path" := PStr "f9_99";
                                                     "default_value" := PStr "2024" ]} ]} ] ]} ] ]}.

(** *** More of the source: the summary figure and the script *)

(** [print_summary], line 146: [sum(len(page.annotations) for page in
    self.pages)], the total the summary reports next to [len(self.pages)]. *)
Definition total_annotations (self : AnnotationForm.t) : nat :=
  sum_list_with (fun page => length (Pages.annotations page)) (pages self).


Definition main_payload : gmap string pyval :=
  {[ "default_value" := PStr "Feb";
     "label" := PStr "month";
     "position" := PDict {[ "x" := PInt 226; "y" := PInt 62; "width" := PInt 76;
                            "height" := PInt 12; "unit" := PStr "pt" ]};
     "formatting" := PDict {[ "font_size" := PInt 12; "font_family" := PStr "Arial";
                              "alignment" := PStr "left"; "max_length" := PInt 100 ]} ]}.




(** The document behind the handle with the widget at position [wi] of page
    [pi], whose widgets are [ws], replaced. *)
Definition with_widget (d : fitz.Document) (pi : nat) (ws : list fitz.Widget)
    (wi : nat) (widget : fitz.Widget) : fitz.Document :=
  fitz.mkDocument (<[pi := fitz.GoodPage (<[wi := widget]> ws)]> (fitz.doc_pages d)) false.

(** The six annotation types. *)
Definition annotation_types : list string :=
  ["text"; "checkbox"; "radio"; "dropdown"; "list"; "signature"].

(** The engine's names of the field types that have an annotation type of
    their own. *)
Definition known_field_types : list string :=
  ["Text"; "CheckBox"; "RadioButton"; "ComboBox"; "ListBox"; "Signature"].

(** What holds of every annotation that extraction builds. *)
Definition well_formed_annotation (ann : Annotation.t) : Prop :=
  Annotation.id ann ≠ ""
  /\ DataReference.path (Annotation.data_reference ann) = Annotation.id ann
  /\ DataReference.default_value (Annotation.data_reference ann) ≠ None
  /\ Annotation.type ann ∈ annotation_types
  /\ Annotation.formatting ann = default_formatting
  /\ Position.unit (Annotation.position ann) = PStr "pt"
  /\ exists x y width height,
       Annotation.position ann
       = Position.mk (PInt x) (PInt y) (PInt width) (PInt height) (PStr "pt").

Definition well_formed_page (page : Pages.t) : Prop :=
  1 <= Pages.page_number page
  /\ Pages.annotations page ≠ []
  /\ Forall well_formed_annotation (Pages.annotations page).



(** The number of widgets of a page whose extraction does not raise. *)
Definition extracted_count (p : fitz.Page) : nat :=
  match p with
  | fitz.GoodPage ws => length (List.filter extracts ws)
  | fitz.BadPage => 0
  end.

(** An import for the sample document that lists its field twice: on page
    1, where it is, and on page 2, where it is not. *)
Definition twice_import : pyval :=
  PDict {[ "pages" := PList [
    PDict {[ "page_number" := PInt 1;
             "annotations" := PList [
               PDict {[ "id" := PStr "f1_01"; "label" := PStr "month";
                        "data_reference" := PDict {[ "path" := PStr "f1_01";
                                                     "default_value" := PStr "Feb" ]} ]} ] ]};
    PDict {[ "page_number" := PInt 2;
             "annotations" := PList [
               PDict {[ "id" := PStr "f1_01"; "label" := PStr "year";
                        "data_reference" := PDict {[ "path" := PStr "f1_01";
                                                     "default_value" := PStr "Mar" ]} ]} ] ]} ] ]}.

(** Two imports that do not have the shape of an export, and a session
    whose tree is empty. *)
Definition numeric_pages_import : pyval := PDict {[ "pages" := PInt 7 ]}.

Definition bare_page_import : pyval :=
  PDict {[ "pages" := PList [PDict {[ "page_number" := PInt 1 ]}] ]}.

Definition empty_form_session : Session :=
  (AnnotationForm.mk "empty.pdf" "empty" 2024 "1" None [],
   mkWorld {[ "updated.json" := JsonFile numeric_pages_import ]} 0).

(** ** Handle life cycle *)

Lemma save_pdf_without_handle (self : AnnotationForm.t) (w : World) (out : option string) :
  doc self = None -> save_pdf out (self, w) = Returns tt (self, w).
Proof. intros H. unfold save_pdf. by rewrite H. Qed.

Lemma save_pdf_open_handle pdf_path name year version ps tree w out :
  save_pdf out (open_session pdf_path name year version ps tree w)
  = Returns tt (saved_session pdf_path name year version ps tree w out).
Proof. reflexivity. Qed.

Lemma ensure_open_closed_handle (self : AnnotationForm.t) (w : World) (d : fitz.Document) :
  doc self = Some d -> fitz.is_closed d = true ->
  ensure_open (self, w) = Raises ValueError (self, w).
Proof. intros Hd Hc. unfold ensure_open, fitz.len. by rewrite Hd, Hc. Qed.

Lemma ensure_open_without_handle (self : AnnotationForm.t) (w : World) (ps : list fitz.Page) :
  doc self = None -> disk w !! pdf_path self = Some (PdfFile ps) ->
  ensure_open (self, w)
  = Returns (fitz.mkDocument ps false)
      (set_doc (Some (fitz.mkDocument ps false)) self,
       mkWorld (disk w) (S (open_handles w))).
Proof.
  intros Hd Hf. unfold ensure_open, reopen, fitz_open. by rewrite Hd, Hf.
Qed.

Lemma update_field_closed_handle find missing n v (self : AnnotationForm.t) w d :
  doc self = Some d -> fitz.is_closed d = true ->
  update_field find missing n v (self, w) = Raises ValueError (self, w).
Proof.
  intros Hd Hc. unfold update_field.
  by rewrite (ensure_open_closed_handle self w d Hd Hc).
Qed.

(** C1, evaluated on the code: in every session whose handle is open,
    [save_pdf] returns and leaves [self.doc] referring to the closed
    document; the next update call, by id or by label, does not reopen the
    document from [pdf_path]: it raises [ValueError] and the handle is still
    the closed one. *)
Theorem update_after_save_raises pdf_path name year version ps tree w out
    (c : update_call) :
  let st1 := saved_session pdf_path name year version ps tree w out in
  save_pdf out (open_session pdf_path name year version ps tree w) = Returns tt st1
  /\ run_call c st1 = Raises ValueError st1
  /\ doc st1.1 = Some (fitz.mkDocument ps true).
Proof.
  intros st1. split; [apply save_pdf_open_handle|]. split; [|done].
  destruct c; simpl; by eapply update_field_closed_handle.
Qed.

(** C2, evaluated on the code: a second [save_pdf], called when the first
    has closed the handle, is not a no-op: it raises [ValueError].  (With
    [self.doc] equal to [None] the call is a no-op,
    [save_pdf_without_handle].) *)
Theorem save_after_save_raises pdf_path name year version ps tree w out out' :
  let st1 := saved_session pdf_path name year version ps tree w out in
  save_pdf out (open_session pdf_path name year version ps tree w) = Returns tt st1
  /\ save_pdf out' st1 = Raises ValueError st1.
Proof. intros st1. split; reflexivity. Qed.

(** ** Extraction and the handle *)

Lemma walk_pages_stopped (todo : list fitz.Page) : forall n acc,
  (walk_pages n todo acc).2 = if forallb loadable todo then None else Some FileDataError.
Proof.
  induction todo as [|p todo IH]; intros n acc; [done|].
  destruct p as [ws|]; simpl; [|done].
  destruct (walk_widgets ws []); apply IH.
Qed.

(** C3, counterexample: the second page of the document cannot be loaded;
    construction raises, and at that point the handle opened for extraction
    is still open. *)
Lemma extraction_leaves_handle_open_on_failure :
  exists st d,
    init "broken.pdf" "f1040" 2024 "2024" broken_world = Raises FileDataError st
    /\ doc st.1 = Some d /\ fitz.is_closed d = false
    /\ open_handles st.2 = S (open_handles broken_world).
Proof. vm_compute. eauto 10. Qed.

(** C3, amended: extraction closes the handle when the page walk runs to
    completion (widgets that fail are skipped and do not prevent it):
    construction returns with [self.doc = None] and as many engine handles
    open as before.  When the file cannot be opened no handle was acquired.
    When a page cannot be loaded the error propagates with the handle still
    open. *)
Theorem extraction_closes_handle_on_completion pdf_path name year version (w : World) :
  let out := init pdf_path name year version w in
  match disk w !! pdf_path with
  | Some (PdfFile ps) =>
      if forallb loadable ps then
        exists st, out = Returns tt st /\ doc st.1 = None
                   /\ open_handles st.2 = open_handles w /\ disk st.2 = disk w
      else
        exists st, out = Raises FileDataError st
                   /\ doc st.1 = Some (fitz.mkDocument ps false)
                   /\ open_handles st.2 = S (open_handles w)
  | _ =>
      out = Raises FileDataError (AnnotationForm.mk pdf_path name year version None [], w)
  end.
Proof.
  unfold init, read_pdf, fitz_open; simpl.
  destruct (disk w !! pdf_path) as [[ps|v]|] eqn:Hf; try done. simpl.
  pose proof (walk_pages_stopped ps 0 []) as Hs.
  destruct (walk_pages 0 ps []) as [pgs stopped]; simpl in *. subst stopped.
  destruct (forallb loadable ps); eauto.
Qed.

(** ** Updates leave the in-memory tree alone *)

Lemma export_to_json_exported_part (a b : AnnotationForm.t) :
  exported_part a = exported_part b -> export_to_json a = export_to_json b.
Proof.
  unfold exported_part, export_to_json. intros H.
  injection H as -> -> -> -> ->. reflexivity.
Qed.

Lemma exported_part_set_doc d (self : AnnotationForm.t) :
  exported_part (set_doc d self) = exported_part self.
Proof. reflexivity. Qed.

Lemma ensure_open_exported_part (st : Session) :
  exported_part (state_of (ensure_open st)).1 = exported_part st.1.
Proof.
  destruct st as [self w]. unfold ensure_open, reopen. simpl.
  destruct (doc self) as [d|]; [destruct (fitz.len d) as [[|n]|]|];
    try reflexivity; by destruct (fitz_open (pdf_path self) w) as [[d' w']|].
Qed.

Lemma update_field_exported_part find missing n v (st : Session) :
  exported_part (state_of (update_field find missing n v st)).1 = exported_part st.1.
Proof.
  unfold update_field.
  pose proof (ensure_open_exported_part st) as Ho.
  destruct (ensure_open st) as [d st1|e st1]; simpl in Ho; [|done].
  match goal with |- context [match ?r with Ok _ => _ | Err _ => _ end] =>
    destruct r as [[[pi [wi widget]] u]|e] end; [|done].
  destruct (apply_update u widget) as [committed [e|]]; simpl;
    by rewrite exported_part_set_doc.
Qed.

Lemma run_call_exported_part (c : update_call) (st : Session) :
  exported_part (state_of (run_call c st)).1 = exported_part st.1.
Proof. destruct c; apply update_field_exported_part. Qed.

(** C9: after any sequence of update calls, by id or by label, returning or
    raising, [self.pages], [pdf_path], [name], [year] and [version] are what
    they were, and [export_to_json] yields the same document. *)
Theorem updates_leave_tree_unchanged (cs : list update_call) (st : Session) :
  let st' := run_calls cs st in
  pages st'.1 = pages st.1
  /\ pdf_path st'.1 = pdf_path st.1
  /\ name st'.1 = name st.1
  /\ year st'.1 = year st.1
  /\ version st'.1 = version st.1
  /\ export_to_json st'.1 = export_to_json st.1.
Proof.
  simpl.
  assert (H : exported_part (run_calls cs st).1 = exported_part st.1).
  { revert st. induction cs as [|c cs IH]; intros st; [done|].
    simpl. rewrite IH. apply run_call_exported_part. }
  pose proof (export_to_json_exported_part _ _ H) as He.
  unfold exported_part in H. injection H as -> -> -> -> ->. done.
Qed.

(** ** UpdateField.from_dict *)

Lemma truthy_dict (d : gmap string pyval) : truthy (PDict d) = true <-> d ≠ ∅.
Proof.
  simpl. rewrite negb_true_iff, bool_decide_eq_false.
  by rewrite dom_empty_iff_L.
Qed.

Lemma truthy_empty_dict : truthy (PDict ∅) = false.
Proof. reflexivity. Qed.




Lemma position_of_falsy (v : pyval) :
  truthy v = false -> UpdateField.position_of v = Ok None.
Proof. intros H. unfold UpdateField.position_of. by rewrite H. Qed.

Lemma formatting_of_falsy (v : pyval) :
  truthy v = false -> UpdateField.formatting_of v = Ok None.
Proof. intros H. unfold UpdateField.formatting_of. by rewrite H. Qed.





(** ** The empty default value *)

Lemma find_widget_by_annotation_id_lookup ws i wi widget :
  find_widget_by_annotation_id ws i = Some (wi, widget) -> ws !! wi = Some widget.
Proof.
  revert wi. induction ws as [|w ws IH]; intros wi; simpl; [done|].
  case_bool_decide; [by intros [= <- <-]|].
  destruct (find_widget_by_annotation_id ws i) as [[k w']|]; simpl; [|done].
  intros [= <- <-]. by apply IH.
Qed.

Lemma find_widget_by_label_lookup ws l wi widget :
  find_widget_by_label ws l = Some (wi, widget) -> ws !! wi = Some widget.
Proof.
  revert wi. induction ws as [|w ws IH]; intros wi; simpl; [done|].
  case_bool_decide; [by intros [= <- <-]|].
  destruct (find_widget_by_label ws l) as [[k w']|]; simpl; [|done].
  intros [= <- <-]. by apply IH.
Qed.

Lemma getitem_lookup d i pi ws :
  fitz.getitem d i = Ok (pi, ws) -> fitz.doc_pages d !! pi = Some (fitz.GoodPage ws).
Proof.
  unfold fitz.getitem. destruct (fitz.is_closed d); [done|].
  destruct (Z.leb _ _); [done|]. destruct (Z.eqb _ _); [done|].
  destruct (fitz.doc_pages d !! _) as [[ws'|]|] eqn:Hl; [|done..].
  by intros [= <- <-].
Qed.

Lemma ensure_open_returns st d st1 :
  ensure_open st = Returns d st1 -> doc st1.1 = Some d.
Proof.
  destruct st as [self w]. unfold ensure_open, reopen.
  destruct (doc self) as [d0|] eqn:Hd.
  - destruct (fitz.len d0) as [[|n]|]; [| |done].
    + destruct (fitz_open _ _) as [[d' w']|]; [|done]. by intros [= <- <-].
    + by intros [= <- <-].
  - destruct (fitz_open _ _) as [[d' w']|]; [|done]. by intros [= <- <-].
Qed.











(** ** Extraction order *)

Lemma extract_widget_extracts n widget :
  extracts widget = true <-> exists a, extract_widget n widget = Ok a.
Proof.
  unfold extracts, extract_widget.
  destruct (py_int (fitz.x0 (fitz.rect widget))); simpl; [|split; [done|by intros [? ?]]].
  destruct (py_int (fitz.y0 (fitz.rect widget))); simpl; [|split; [done|by intros [? ?]]].
  destruct (py_int (float_sub (fitz.x1 (fitz.rect widget)) (fitz.x0 (fitz.rect widget))));
    simpl; [|split; [done|by intros [? ?]]].
  destruct (py_int (float_sub (fitz.y1 (fitz.rect widget)) (fitz.y0 (fitz.rect widget))));
    simpl; [|split; [done|by intros [? ?]]].
  split; eauto.
Qed.

Lemma walk_widgets_spec (ws : list fitz.Widget) : forall acc,
  exists new,
    walk_widgets ws acc = (acc ++ new)%list
    /\ length new = length (List.filter extracts ws)
    /\ forall j widget,
         List.filter extracts ws !! j = Some widget ->
         exists a, new !! j = Some a
                   /\ extract_widget (length acc + j) widget = Ok a.
Proof.
  induction ws as [|w ws IH]; intros acc; simpl.
  - exists []. rewrite app_nil_r. repeat split; [done..|]. by intros j widget.
  - destruct (extract_widget (length acc) w) as [a|e] eqn:He.
    + assert (Hx : extracts w = true) by (apply (extract_widget_extracts (length acc)); eauto).
      rewrite Hx. destruct (IH (acc ++ [a])%list) as (new & Hw & Hl & Hj).
      exists (a :: new). rewrite Hw, <- app_assoc. simpl. split; [done|].
      split; [by rewrite Hl|].
      intros [|j] widget Hlk; simpl in *.
      * injection Hlk as <-. exists a. by rewrite Nat.add_0_r.
      * destruct (Hj j widget Hlk) as (a' & Ha' & Hex). exists a'. split; [done|].
        rewrite length_app in Hex. simpl in Hex.
        by replace (length acc + S j)%nat with (length acc + 1 + j)%nat by lia.
    + assert (Hx : extracts w = false).
      { destruct (extracts w) eqn:Hx; [|done].
        apply (extract_widget_extracts (length acc)) in Hx as [a Ha]. congruence. }
      rewrite Hx. apply IH.
Qed.

Lemma walk_widgets_nonempty (ws : list fitz.Widget) :
  walk_widgets ws [] ≠ [] <-> (0 < length (List.filter extracts ws))%nat.
Proof.
  destruct (walk_widgets_spec ws []) as (new & Hw & Hl & _). simpl in Hw.
  rewrite Hw, <- Hl. destruct new; simpl; split; (done || lia).
Qed.

Lemma walk_pages_spec (todo : list fitz.Page) : forall n acc,
  forallb loadable todo = true ->
  exists kept,
    walk_pages n todo acc = ((acc ++ kept)%list, None)
    /\ (forall P, P ∈ kept <->
          exists i ws, todo !! i = Some (fitz.GoodPage ws)
                       /\ walk_widgets ws [] ≠ []
                       /\ P = Pages.mk (Z.of_nat (n + i) + 1) (walk_widgets ws []))
    /\ StronglySorted Z.lt (Pages.page_number <$> kept)
    /\ Forall (fun P => Z.of_nat n < Pages.page_number P) kept.
Proof.
  induction todo as [|p todo IH]; intros n acc Hall.
  - exists []. simpl. rewrite app_nil_r. repeat split; try constructor.
    + by intros ?%elem_of_nil.
    + by intros (i & ws & ? & _).
  - destruct p as [ws|]; [|done]. simpl in Hall. simpl.
    destruct (walk_widgets ws []) as [|a anns] eqn:Hw.
    + destruct (IH (S n) acc Hall) as (kept & Hk & Hin & Hs & Hlt).
      exists kept. split; [done|]. split; [|split; [done|]].
      * intros P. rewrite Hin. split.
        -- intros (i & ws' & Hl & Hne & ->). exists (S i), ws'.
           repeat split; [done..|]. by replace (n + S i)%nat with (S n + i)%nat by lia.
        -- intros ([|i] & ws' & Hl & Hne & ->); simpl in Hl.
           ++ injection Hl as <-. by rewrite Hw in Hne.
           ++ exists i, ws'. repeat split; [done..|].
              by replace (n + S i)%nat with (S n + i)%nat by lia.
      * eapply Forall_impl; [exact Hlt|]. intros P. simpl. lia.
    + set (P0 := Pages.mk (Z.of_nat n + 1) (a :: anns)).
      destruct (IH (S n) (acc ++ [P0])%list Hall) as (kept & Hk & Hin & Hs & Hlt).
      exists (P0 :: kept). rewrite Hk, <- app_assoc. simpl.
      split; [done|]. split; [|split].
      * intros P. rewrite elem_of_cons, Hin. split.
        -- intros [->|(i & ws' & Hl & Hne & ->)].
           ++ exists 0%nat, ws. rewrite Hw, Nat.add_0_r. done.
           ++ exists (S i), ws'. repeat split; [done..|].
              by replace (n + S i)%nat with (S n + i)%nat by lia.
        -- intros ([|i] & ws' & Hl & Hne & ->); simpl in Hl.
           ++ injection Hl as <-. left. by rewrite Hw, Nat.add_0_r.
           ++ right. exists i, ws'. repeat split; [done..|].
              by replace (n + S i)%nat with (S n + i)%nat by lia.
      * constructor; [done|]. apply Forall_fmap.
        eapply Forall_impl; [exact Hlt|]. intros P. simpl. lia.
      * constructor; [simpl; lia|].
        eapply Forall_impl; [exact Hlt|]. intros P. simpl. lia.
Qed.

Lemma walk_pages_order (ps : list fitz.Page) (kept : list Pages.t) :
  (forall P, P ∈ kept <->
     exists i ws, ps !! i = Some (fitz.GoodPage ws)
                  /\ walk_widgets ws [] ≠ []
                  /\ P = Pages.mk (Z.of_nat (0 + i) + 1) (walk_widgets ws [])) ->
  StronglySorted Z.lt (Pages.page_number <$> kept) ->
  extraction_order ps kept.
Proof.
  intros Hin Hs. split; [done|]. split.
  - intros i ws Hl. rewrite <- walk_widgets_nonempty. split.
    + intros Hne. exists (Pages.mk (Z.of_nat (0 + i) + 1) (walk_widgets ws [])).
      split; [|done]. apply Hin. by exists i, ws.
    + intros (P & HP & Hn). apply Hin in HP as (i' & ws' & Hl' & Hne & ->).
      simpl in Hn. assert (i' = i) as -> by lia. congruence.
  - intros P HP. apply Hin in HP as (i & ws & Hl & Hne & ->).
    exists i, ws. split; [done|]. split; [done|]. simpl.
    destruct (walk_widgets_spec ws []) as (new & Hw & Hlen & Hj).
    simpl in Hw. rewrite Hw. split; [done|]. intros j widget Hlk.
    by apply Hj.
Qed.

(** C8: when every page of the document can be loaded, construction
    returns, and the tree it built has an entry for page [i] exactly when at
    least one field of that page was extracted, the entries in ascending page
    order, each holding its page's extracted fields in the order the engine
    enumerates the widgets. *)
Theorem extraction_preserves_order pdf_path name year version (w : World)
    (ps : list fitz.Page) :
  disk w !! pdf_path = Some (PdfFile ps) ->
  forallb loadable ps = true ->
  exists st,
    init pdf_path name year version w = Returns tt st
    /\ extraction_order ps (pages st.1).
Proof.
  intros Hf Hall. unfold init, read_pdf, fitz_open. simpl. rewrite Hf. simpl.
  destruct (walk_pages_spec ps 0 [] Hall) as (kept & Hk & Hin & Hs & _).
  rewrite Hk. simpl. eexists. split; [done|]. simpl.
  by apply walk_pages_order.
Qed.

Lemma extraction_preserves_order_witness :
  exists st,
    init "f1040.pdf" "f1040" 2024 "2024" sample_world = Returns tt st
    /\ extraction_order [fitz.GoodPage [sample_widget]; fitz.GoodPage []] (pages st.1).
Proof.
  apply (extraction_preserves_order "f1040.pdf" "f1040" 2024 "2024" sample_world).
  - vm_compute. reflexivity.
  - vm_compute. reflexivity.
Defined.

(** ** Export followed by import *)








(** ** Bulk update *)

Lemma apply_calls_app (cs1 cs2 : list bulk_call) (st : Session) :
  apply_calls (cs1 ++ cs2) st
  = match apply_calls cs1 st with
    | Returns _ st' => apply_calls cs2 st'
    | Raises e st' => Raises e st'
    end.
Proof.
  revert st. induction cs1 as [|c cs1 IH]; intros st; simpl; [done|].
  destruct (update_field_by_anotation_id_and_page_number _ _ _ st); [apply IH|done].
Qed.

Lemma for_each_as_calls {A} (l : list A) (body : A -> M unit) (f : A -> list bulk_call) :
  (forall a, a ∈ l -> forall st, finish (body a st) = apply_calls (f a) st) ->
  forall st, finish (for_each l body st) = apply_calls (l ≫= f) st.
Proof.
  induction l as [|a l IH]; intros H st; simpl; [done|].
  change ((a :: l) ≫= f) with (f a ++ (l ≫= f)).
  rewrite apply_calls_app, <- (H a) by (apply elem_of_cons; by left).
  destruct (body a st) as [[] st'|e st']; simpl; [|done].
  apply IH. intros a' Ha'. apply H. apply elem_of_cons. by right.
Qed.

Lemma id_matches_spec (i : string) (v : pyval) : id_matches i v = true <-> v = PStr i.
Proof.
  destruct v; simpl; try (split; [done|by intros]).
  rewrite String.eqb_eq. split; [by intros ->|by intros [= ->]].
Qed.

Lemma update_body_conforms (new_ann : pyval) :
  annotation_conforms new_ann = true -> update_body new_ann = Ok (imported_body new_ann).
Proof.
  destruct new_ann as [| | | | |d]; try done. simpl.
  destruct (d !! "data_reference") as [[| | | | |ref]|] eqn:Hr; try done. intros _.
  unfold update_body, imported_body. simpl. unfold dict_get. by rewrite Hr.
Qed.

Lemma forallb_elem_of {A} (f : A -> bool) (l : list A) (a : A) :
  forallb f l = true -> a ∈ l -> f a = true.
Proof. rewrite forallb_forall. intros H Ha. apply H. by apply list_elem_of_In. Qed.

Lemma scan_page_as_calls (ann : Annotation.t) (page : pyval) (st : Session) :
  page_conforms page = true ->
  finish (scan_page ann page st) = apply_calls (page_matches ann page) st.
Proof.
  destruct page as [| | | | |d]; try done. simpl.
  destruct (d !! "annotations") as [[| | | |anns|]|] eqn:Ha; try done. intros Hall.
  unfold scan_page, page_matches, imported_annotations. simpl. unfold dict_get.
  rewrite Ha. simpl.
  apply for_each_as_calls. intros new_ann Hin st'.
  pose proof (forallb_elem_of _ _ _ Hall Hin) as Hc.
  rewrite (update_body_conforms _ Hc).
  destruct new_ann as [| | | | |nd]; try done. simpl. unfold dict_get.
  destruct (id_matches (Annotation.id ann) (default PNone (nd !! "id"))); simpl; [|done].
  by destruct (update_field_by_anotation_id_and_page_number _ _ _ st').
Qed.

Lemma load_as_calls (json_path : string) (json : pyval) (st : Session) :
  read_json json_path st.2 = Ok json ->
  conforms json = true ->
  imported_pages json ≠ [] ->
  load_updated_annotaion_json json_path st = apply_calls (bulk_calls (pages st.1) json) st.
Proof.
  intros Hread Hconf Hne. unfold load_updated_annotaion_json. rewrite Hread.
  destruct json as [| | | | |top]; try done. simpl in Hconf.
  unfold imported_pages in Hne. simpl in *. unfold dict_get in Hne.
  destruct (top !! "pages") as [[| | | |ps|]|] eqn:Hp; try done. simpl in *.
  assert (Ht : truthy (PList ps) = true) by (by destruct ps).
  simpl in Ht. rewrite Ht. simpl negb. cbv iota.
  change (match ?o with Returns _ st' => Returns true st' | Raises e st' => Raises e st' end)
    with (finish o).
  unfold bulk_calls. apply for_each_as_calls. intros page _ st1.
  apply for_each_as_calls. intros ann _ st2.
  unfold scan_import, matches_of, imported_pages. simpl. unfold dict_get.
  rewrite Hp. simpl.
  apply for_each_as_calls. intros ipage Hin st3.
  apply scan_page_as_calls. by eapply forallb_elem_of.
Qed.

Lemma elem_of_page_matches (c : bulk_call) (ann : Annotation.t) (page : pyval) :
  c ∈ page_matches ann page <->
  exists new_ann,
    new_ann ∈ imported_annotations page
    /\ field new_ann "id" = PStr (Annotation.id ann)
    /\ c = mk_call (Annotation.id ann) (field page "page_number") (imported_body new_ann).
Proof.
  unfold page_matches. rewrite list_elem_of_bind. split.
  - intros (new_ann & Hc & Hin).
    destruct (id_matches (Annotation.id ann) (field new_ann "id")) eqn:Hm.
    + apply list_elem_of_singleton in Hc. apply id_matches_spec in Hm. eauto.
    + by apply elem_of_nil in Hc.
  - intros (new_ann & Hin & Hid & ->). exists new_ann. split; [|done].
    apply id_matches_spec in Hid. rewrite Hid. by apply list_elem_of_singleton.
Qed.

Lemma elem_of_bulk_calls (c : bulk_call) (tree : list Pages.t) (json : pyval) :
  c ∈ bulk_calls tree json <->
  exists page ann imported_page new_ann,
    page ∈ tree
    /\ ann ∈ Pages.annotations page
    /\ imported_page ∈ imported_pages json
    /\ new_ann ∈ imported_annotations imported_page
    /\ field new_ann "id" = PStr (Annotation.id ann)
    /\ c = mk_call (Annotation.id ann) (field imported_page "page_number")
                   (imported_body new_ann).
Proof.
  unfold bulk_calls, matches_of. rewrite list_elem_of_bind. split.
  - intros (page & Hc & Hpage).
    apply list_elem_of_bind in Hc as (ann & Hc & Hann).
    apply list_elem_of_bind in Hc as (ipage & Hc & Hipage).
    apply elem_of_page_matches in Hc as (new_ann & Hin & Hid & ->).
    by exists page, ann, ipage, new_ann.
  - intros (page & ann & ipage & new_ann & Hpage & Hann & Hipage & Hin & Hid & ->).
    exists page. split; [|done].
    apply list_elem_of_bind. exists ann. split; [|done].
    apply list_elem_of_bind. exists ipage. split; [|done].
    apply elem_of_page_matches. by exists new_ann.
Qed.

Lemma bulk_calls_no_match (tree : list Pages.t) (json : pyval) :
  (forall page ann imported_page new_ann,
     page ∈ tree -> ann ∈ Pages.annotations page ->
     imported_page ∈ imported_pages json ->
     new_ann ∈ imported_annotations imported_page ->
     field new_ann "id" ≠ PStr (Annotation.id ann)) ->
  bulk_calls tree json = [].
Proof.
  intros H. destruct (bulk_calls tree json) as [|c cs] eqn:Hb; [done|].
  assert (Hc : c ∈ bulk_calls tree json) by (rewrite Hb; apply elem_of_cons; by left).
  apply elem_of_bulk_calls in Hc
    as (page & ann & ipage & new_ann & Hpage & Hann & Hipage & Hin & Hid & _).
  by destruct (H page ann ipage new_ann).
Qed.

(** C5: on an import that conforms to the export schema and has at least
    one page, the bulk update is the sequence of single-field updates by id
    listed by [bulk_calls]: one for every live annotation and every imported
    annotation with an equal id, found by scanning all imported pages for
    each live annotation, whatever page either is on; each is called with
    the live annotation's id, the page number of the imported page and the
    payload built from the imported annotation. *)
Theorem bulk_update_matches_by_id (json_path : string) (json : pyval) (st : Session) :
  read_json json_path st.2 = Ok json ->
  conforms json = true ->
  imported_pages json ≠ [] ->
  bulk_update_by_id json_path json st.
Proof.
  intros Hread Hconf Hne. split.
  - by apply load_as_calls.
  - intros c. apply elem_of_bulk_calls.
Qed.

(** C6, counterexample: an import that has a [pages] key holding an empty
    array, hence no annotation id at all; the bulk update does not return
    success, it raises. *)
Lemma empty_pages_import_raises :
  let json := PDict {[ "pdf_info" := PDict ∅; "pages" := PList [] ]} in
  let st := sample_session json in
  read_json "updated.json" st.2 = Ok json
  /\ field json "pages" = PList []
  /\ conforms json = true
  /\ load_updated_annotaion_json "updated.json" st
     = Raises (Exception "Invalid updated annotation json") st.
Proof. vm_compute. done. Qed.

(** C6, amended: for an import that conforms to the export schema and has
    at least one page, if no imported annotation has the id of a live
    annotation, the bulk update returns true and the session, document
    included, is exactly as before; an import whose top-level object has no
    [pages] key, or an empty [pages] array, raises, the session being as
    before. *)
Theorem bulk_update_without_match (json_path : string) (json : pyval) (st : Session) :
  read_json json_path st.2 = Ok json ->
  (conforms json = true ->
   imported_pages json ≠ [] ->
   (forall page ann imported_page new_ann,
      page ∈ pages st.1 -> ann ∈ Pages.annotations page ->
      imported_page ∈ imported_pages json ->
      new_ann ∈ imported_annotations imported_page ->
      field new_ann "id" ≠ PStr (Annotation.id ann)) ->
   load_updated_annotaion_json json_path st = Returns true st)
  /\ (forall top,
        json = PDict top ->
        top !! "pages" = None \/ top !! "pages" = Some (PList []) ->
        load_updated_annotaion_json json_path st
        = Raises (Exception "Invalid updated annotation json") st).
Proof.
  intros Hread. split.
  - intros Hconf Hne Hno.
    rewrite (load_as_calls json_path json st Hread Hconf Hne).
    by rewrite (bulk_calls_no_match _ _ Hno).
  - intros top -> Hp. unfold load_updated_annotaion_json. rewrite Hread. simpl.
    by destruct Hp as [-> | ->].
Qed.

Lemma bulk_update_matches_by_id_witness :
  bulk_update_by_id "updated.json" moved_import (sample_session moved_import).
Proof.
  apply bulk_update_matches_by_id.
  - vm_compute. reflexivity.
  - vm_compute. reflexivity.
  - intros H. vm_compute in H. discriminate H.
Defined.

(** The field extracted from page 1 is updated on page 2, where the import
    lists it, and is not found there. *)
Example moved_import_uses_imported_page :
  Pages.page_number <$> pages (sample_session moved_import).1 = [1]
  /\ (fun c => (call_id c, call_page_number c))
       <$> bulk_calls (pages (sample_session moved_import).1) moved_import
     = [("f1_01", PInt 2)]
  /\ load_updated_annotaion_json "updated.json" (sample_session moved_import)
     = Raises (Exception "Widget with annotation id f1_01 not found")
         (state_of (ensure_open (sample_session moved_import))).
Proof. vm_compute. done. Qed.

Lemma bulk_update_without_match_witness :
  load_updated_annotaion_json "updated.json" (sample_session other_import)
  = Returns true (sample_session other_import)
  /\ load_updated_annotaion_json "updated.json" (sample_session (PDict ∅))
     = Raises (Exception "Invalid updated annotation json") (sample_session (PDict ∅)).
Proof.
  split.
  - apply (bulk_update_without_match "updated.json" other_import).
    + vm_compute. reflexivity.
    + vm_compute. reflexivity.
    + intros H. vm_compute in H. discriminate H.
    + intros page ann ipage new_ann Hp Ha Hi Hn.
      vm_compute in Hp. apply list_elem_of_singleton in Hp. subst page.
      vm_compute in Ha. apply list_elem_of_singleton in Ha. subst ann.
      vm_compute in Hi. apply list_elem_of_singleton in Hi. subst ipage.
      vm_compute in Hn. apply list_elem_of_singleton in Hn. subst new_ann.
      intros H. vm_compute in H. discriminate H.
  - apply (proj2 (bulk_update_without_match "updated.json" (PDict ∅)
                    (sample_session (PDict ∅)) ltac:(vm_compute; reflexivity)) ∅).
    + reflexivity.
    + left. vm_compute. reflexivity.
Defined.

(** ** The life cycle on the sample document *)

(** Constructing, updating and saving work; the update and the save that
    come after the save both raise, the document being closed and never
    reopened. *)
Example update_save_update :
  exists st0 st1 st2,
    init "f1040.pdf" "f1040" 2024 "2024" sample_world = Returns tt st0
    /\ doc st0.1 = None
    /\ update_field_by_anotation_id_and_page_number "f1_01" (PInt 1)
         (inr {[ "default_value" := PStr "Feb" ]}) st0 = Returns true st1
    /\ field_values st1 = Some [Some [Some "Feb"]; Some []]
    /\ save_pdf None st1 = Returns tt st2
    /\ disk st2.2 !! "output.pdf"
       = Some (PdfFile [fitz.GoodPage [fitz.set_field_value (Some "Feb") sample_widget];
                        fitz.GoodPage []])
    /\ open_handles st2.2 = 0%nat
    /\ update_field_by_anotation_id_and_page_number "f1_01" (PInt 1)
         (inr {[ "default_value" := PStr "Mar" ]}) st2 = Raises ValueError st2
    /\ save_pdf None st2 = Raises ValueError st2.
Proof.
  eexists _, _, _.
  split; [vm_compute; reflexivity|].
  split; [vm_compute; reflexivity|].
  split; [vm_compute; reflexivity|].
  split; [vm_compute; reflexivity|].
  split; [vm_compute; reflexivity|].
  split; [vm_compute; reflexivity|].
  split; [vm_compute; reflexivity|].
  split; vm_compute; reflexivity.
Qed.

(** ** Widget lookup *)

Ltac first_match_induction ws :=
  induction ws as [|w0 ws IH]; simpl;
  [ by intros w ?%elem_of_nil
  | case_bool_decide as Hhead;
    [ split; [done|]; split; [done|]; intros j w' Hj; lia
    | match goal with
      | |- context [prod_map S id <$> ?f] =>
          destruct f as [[wi w]|]; simpl
      end;
      [ destruct IH as (Hl & Hn & Hfirst); split; [done|]; split; [done|];
        intros [|j] w' Hj Hw'; simpl in Hw';
        [ by injection Hw' as <- | apply (Hfirst j); [lia|done] ]
      | intros w [->|Hin]%elem_of_cons; [done|by apply IH] ] ] ].

(** X1: lookup by annotation id and lookup by label scan the page's widgets in
    order and return the first whose name, respectively label, equals the key,
    with no widget before it matching; they return nothing exactly when no
    widget of the page matches. *)
Theorem widget_lookup_first_match (ws : list fitz.Widget) (key : string) :
  match find_widget_by_annotation_id ws key with
  | Some (wi, widget) =>
      ws !! wi = Some widget
      /\ fitz.field_name widget = Some key
      /\ forall j w', (j < wi)%nat -> ws !! j = Some w' -> fitz.field_name w' ≠ Some key
  | None => forall w, w ∈ ws -> fitz.field_name w ≠ Some key
  end
  /\ match find_widget_by_label ws key with
     | Some (wi, widget) =>
         ws !! wi = Some widget
         /\ fitz.field_label widget = Some key
         /\ forall j w', (j < wi)%nat -> ws !! j = Some w' -> fitz.field_label w' ≠ Some key
     | None => forall w, w ∈ ws -> fitz.field_label w ≠ Some key
     end.
Proof. split; first_match_induction ws. Qed.

(** ** What an update call does to the document *)

Lemma ensure_open_returns_open st d st1 :
  ensure_open st = Returns d st1 -> fitz.is_closed d = false.
Proof.
  destruct st as [self w]. unfold ensure_open, reopen, fitz_open, fitz.len.
  destruct (doc self) as [d0|] eqn:Hd.
  - destruct (fitz.is_closed d0) eqn:Hc; [done|].
    destruct (length (fitz.doc_pages d0)).
    + destruct (disk w !! pdf_path self) as [[ps|]|]; [|done..]. by intros [= <- <-].
    + by intros [= <- <-].
  - destruct (disk w !! pdf_path self) as [[ps|]|]; [|done..]. by intros [= <- <-].
Qed.

Lemma getitem_page d (n : Z) ws :
  fitz.is_closed d = false -> 1 <= n ->
  fitz.doc_pages d !! Z.to_nat (n - 1) = Some (fitz.GoodPage ws) ->
  fitz.getitem d (n - 1) = Ok (Z.to_nat (n - 1), ws).
Proof.
  intros Hc Hn Hl. unfold fitz.getitem. rewrite Hc.
  pose proof (lookup_lt_Some _ _ _ Hl) as Hlt.
  destruct (Z.leb_spec (Z.of_nat (length (fitz.doc_pages d))) (n - 1)); [lia|].
  destruct (Z.eqb_spec (Z.of_nat (length (fitz.doc_pages d))) 0); [lia|].
  rewrite Z.mod_small by lia. by rewrite Hl.
Qed.

Lemma commit_doc pi wi widget st d ws :
  doc st.1 = Some d -> fitz.is_closed d = false ->
  fitz.doc_pages d !! pi = Some (fitz.GoodPage ws) ->
  doc (commit pi wi widget st).1 = Some (with_widget d pi ws wi widget)
  /\ (commit pi wi widget st).2 = st.2.
Proof.
  intros Hd Hc Hp. unfold commit, with_widget, fitz.store. simpl.
  by rewrite Hd; simpl; rewrite Hp, Hc.
Qed.

Lemma update_field_located find missing (n : Z) v st d st1 ws :
  ensure_open st = Returns d st1 -> 1 <= n ->
  fitz.doc_pages d !! Z.to_nat (n - 1) = Some (fitz.GoodPage ws) ->
  update_field find missing (PInt n) v st
  = match find ws with
    | None => Raises (Exception missing) st1
    | Some (wi, widget) =>
        match normalize v with
        | Err e => Raises e st1
        | Ok u =>
            let '(committed, stopped) := apply_update u widget in
            let st2 := commit (Z.to_nat (n - 1)) wi committed st1 in
            match stopped with
            | Some e => Raises e st2
            | None => Returns true st2
            end
        end
    end.
Proof.
  intros Ho Hn Hl. unfold update_field. rewrite Ho. simpl.
  rewrite (getitem_page d n ws (ensure_open_returns_open _ _ _ Ho) Hn Hl). simpl.
  destruct (find ws) as [[wi widget]|]; [|done]. simpl.
  by destruct (normalize v).
Qed.




Lemma find_widget_by_annotation_id_none ws key :
  (forall w, w ∈ ws -> fitz.field_name w ≠ Some key) ->
  find_widget_by_annotation_id ws key = None.
Proof.
  induction ws as [|w ws IH]; intros H; simpl; [done|].
  rewrite bool_decide_eq_false_2 by (apply H, elem_of_cons; by left).
  rewrite IH; [done|]. intros w' Hw'. apply H, elem_of_cons. by right.
Qed.

Lemma find_widget_by_label_none ws key :
  (forall w, w ∈ ws -> fitz.field_label w ≠ Some key) ->
  find_widget_by_label ws key = None.
Proof.
  induction ws as [|w ws IH]; intros H; simpl; [done|].
  rewrite bool_decide_eq_false_2 by (apply H, elem_of_cons; by left).
  rewrite IH; [done|]. intros w' Hw'. apply H, elem_of_cons. by right.
Qed.

(** X3: an update by id (by label) of page [n] raises the not-found
    exception when no widget of that page has the name (the label), whatever
    the other pages hold: there is no search across pages.  The payload is not
    looked at, and the session is as the call left it once the handle was
    open: no widget is changed. *)
Theorem update_not_found_on_page (key : string) (n : Z)
    (v : UpdateField.t + gmap string pyval) (st st1 : Session) (d : fitz.Document)
    (ws : list fitz.Widget) :
  ensure_open st = Returns d st1 ->
  1 <= n ->
  fitz.doc_pages d !! Z.to_nat (n - 1) = Some (fitz.GoodPage ws) ->
  ((forall w, w ∈ ws -> fitz.field_name w ≠ Some key) ->
   update_field_by_anotation_id_and_page_number key (PInt n) v st
   = Raises (Exception ("Widget with annotation id " +:+ key +:+ " not found")) st1)
  /\ ((forall w, w ∈ ws -> fitz.field_label w ≠ Some key) ->
      update_field_by_label_and_page_number key (PInt n) v st
      = Raises (Exception ("Widget with label " +:+ key +:+ " not found")) st1).
Proof.
  intros Ho Hn Hl. split; intros Hno.
  - unfold update_field_by_anotation_id_and_page_number.
    rewrite (update_field_located _ _ n _ st d st1 ws Ho Hn Hl).
    by rewrite find_widget_by_annotation_id_none.
  - unfold update_field_by_label_and_page_number.
    rewrite (update_field_located _ _ n _ st d st1 ws Ho Hn Hl).
    by rewrite find_widget_by_label_none.
Qed.

Lemma update_not_found_on_page_witness :
  let st := sample_session PNone in
  let st1 := state_of (ensure_open st) in
  update_field_by_anotation_id_and_page_number "f1_01" (PInt 2) (inr ∅) st
  = Raises (Exception "Widget with annotation id f1_01 not found") st1
  /\ update_field_by_label_and_page_number "month" (PInt 2) (inr ∅) st
     = Raises (Exception "Widget with label month not found") st1.
Proof.
  pose proof (update_not_found_on_page "f1_01" 2 (inr ∅) (sample_session PNone)
                (state_of (ensure_open (sample_session PNone)))
                (fitz.mkDocument [fitz.GoodPage [sample_widget]; fitz.GoodPage []] false)
                [] ltac:(vm_compute; reflexivity) ltac:(lia)
                ltac:(vm_compute; reflexivity)) as [H1 _].
  pose proof (update_not_found_on_page "month" 2 (inr ∅) (sample_session PNone)
                (state_of (ensure_open (sample_session PNone)))
                (fitz.mkDocument [fitz.GoodPage [sample_widget]; fitz.GoodPage []] false)
                [] ltac:(vm_compute; reflexivity) ltac:(lia)
                ltac:(vm_compute; reflexivity)) as [_ H2].
  split.
  - apply H1. by intros w ?%elem_of_nil.
  - apply H2. by intros w ?%elem_of_nil.
Defined.

(** X4: nothing is rolled back.  When the payload has a non-empty string
    value and a position one of whose coordinates is [None], the value is
    assigned and committed, then building the rectangle raises [TypeError]:
    the call raises, and the widget found keeps the new value, everything else
    in the document being as before. *)
Theorem update_no_rollback (annotation_id : string) (n : Z) (s : string)
    (label x y width height unit : pyval) (fmt : option Formatting.t)
    (st st1 : Session) (d : fitz.Document)
    (ws : list fitz.Widget) (wi : nat) (widget : fitz.Widget) :
  ensure_open st = Returns d st1 ->
  1 <= n ->
  fitz.doc_pages d !! Z.to_nat (n - 1) = Some (fitz.GoodPage ws) ->
  find_widget_by_annotation_id ws annotation_id = Some (wi, widget) ->
  s ≠ "" ->
  x = PNone \/ y = PNone \/ width = PNone \/ height = PNone ->
  exists st2,
    update_field_by_anotation_id_and_page_number annotation_id (PInt n)
      (inl (UpdateField.mk (PStr s) label
              (Some (Position.mk x y width height unit)) fmt)) st
    = Raises TypeError st2
    /\ doc st2.1
       = Some (with_widget d (Z.to_nat (n - 1)) ws wi
                 (fitz.set_field_value (Some s) widget))
    /\ st2.2 = st1.2.
Proof.
  intros Ho Hn Hl Hfind Hs Hbad.
  unfold update_field_by_anotation_id_and_page_number.
  rewrite (update_field_located _ _ n _ st d st1 ws Ho Hn Hl), Hfind. simpl.
  apply String.eqb_neq in Hs.
  assert (Ha : apply_update
                 (UpdateField.mk (PStr s) label
                    (Some (Position.mk x y width height unit)) fmt) widget
               = (fitz.set_field_value (Some s) widget, Some TypeError)).
  { unfold apply_update, assign_value, assign_rect. simpl. rewrite Hs. simpl.
    destruct Hbad as [-> | [-> | [-> | ->]]]; simpl;
      repeat match goal with |- context [py_num ?v] => destruct (py_num v) end;
      done. }
  rewrite Ha. eexists. split; [done|].
  apply commit_doc; [by eapply ensure_open_returns|by eapply ensure_open_returns_open|done].
Qed.

Lemma update_no_rollback_witness :
  exists st2,
    update_field_by_anotation_id_and_page_number "f1_01" (PInt 1)
      (inl (UpdateField.mk (PStr "Feb") PNone
              (Some (Position.mk PNone (PInt 62) (PInt 76) (PInt 12) (PStr "pt"))) None))
      (sample_session PNone)
    = Raises TypeError st2
    /\ doc st2.1
       = Some (with_widget
                 (fitz.mkDocument [fitz.GoodPage [sample_widget]; fitz.GoodPage []] false)
                 (Z.to_nat (1 - 1)) [sample_widget] 0
                 (fitz.set_field_value (Some "Feb") sample_widget))
    /\ st2.2 = (state_of (ensure_open (sample_session PNone))).2.
Proof.
  apply (update_no_rollback "f1_01" 1 "Feb" PNone PNone (PInt 62) (PInt 76) (PInt 12)
           (PStr "pt") None (sample_session PNone)
           (state_of (ensure_open (sample_session PNone)))
           (fitz.mkDocument [fitz.GoodPage [sample_widget]; fitz.GoodPage []] false)
           [sample_widget] 0 sample_widget).
  - vm_compute. reflexivity.
  - lia.
  - vm_compute. reflexivity.
  - vm_compute. reflexivity.
  - discriminate.
  - by left.
Defined.

(** ** Reading back what was written *)





Lemma init_loadable pdf_path name year version (w : World) (ps : list fitz.Page) :
  disk w !! pdf_path = Some (PdfFile ps) ->
  forallb loadable ps = true ->
  init pdf_path name year version w
  = Returns tt (AnnotationForm.mk pdf_path name year version None (walk_pages 0 ps []).1,
                mkWorld (disk w) (open_handles w)).
Proof.
  intros Hf Hall. unfold init, read_pdf, fitz_open. simpl. rewrite Hf. simpl.
  pose proof (walk_pages_stopped ps 0 []) as Hs. rewrite Hall in Hs.
  destruct (walk_pages 0 ps []) as [kept stopped]. simpl in *. by subst.
Qed.




(** ** The script *)




(** ** Files and handles *)

Lemma ensure_open_disk (st : Session) :
  disk (state_of (ensure_open st)).2 = disk st.2.
Proof.
  destruct st as [self w]. unfold ensure_open, reopen, fitz_open. simpl.
  destruct (doc self) as [d|]; [destruct (fitz.len d) as [[|n]|]|];
    try reflexivity; by destruct (disk w !! pdf_path self) as [[ps|]|].
Qed.

Lemma update_field_disk find missing n v (st : Session) :
  disk (state_of (update_field find missing n v st)).2 = disk st.2.
Proof.
  unfold update_field.
  pose proof (ensure_open_disk st) as Ho.
  destruct (ensure_open st) as [d st1|e st1]; simpl in Ho; [|done].
  match goal with |- context [match ?r with Ok _ => _ | Err _ => _ end] =>
    destruct r as [[[pi [wi widget]] u]|e] end; [|done].
  by destruct (apply_update u widget) as [committed [e|]].
Qed.

Lemma for_each_disk {A} (l : list A) (body : A -> M unit) :
  (forall a st, disk (state_of (body a st)).2 = disk st.2) ->
  forall st, disk (state_of (for_each l body st)).2 = disk st.2.
Proof.
  intros H. induction l as [|a l IH]; intros st; simpl; [done|].
  pose proof (H a st) as Ha.
  destruct (body a st) as [[] st'|e st']; simpl in *; [|done].
  by rewrite IH.
Qed.

Lemma scan_page_disk ann page (st : Session) :
  disk (state_of (scan_page ann page st)).2 = disk st.2.
Proof.
  unfold scan_page.
  destruct (res_bind _ _) as [new_anns|e]; [|done].
  apply for_each_disk. intros new_ann st'.
  destruct (py_get new_ann "id") as [new_id|e]; [|done].
  destruct (id_matches _ _); [|done].
  destruct (res_bind _ _) as [[body page_number]|e]; [|done].
  pose proof (update_field_disk
                (fun ws => find_widget_by_annotation_id ws (Annotation.id ann))
                ("Widget with annotation id " +:+ Annotation.id ann +:+ " not found")
                page_number (inr body) st') as Hu.
  unfold update_field_by_anotation_id_and_page_number.
  by destruct (update_field _ _ _ _ st').
Qed.

Lemma load_disk json_path (st : Session) :
  disk (state_of (load_updated_annotaion_json json_path st)).2 = disk st.2.
Proof.
  unfold load_updated_annotaion_json.
  destruct (read_json json_path st.2) as [json|e]; [|done].
  destruct (py_get json "pages") as [ps|e]; [|done].
  destruct (negb (truthy ps)); [done|].
  pose proof (for_each_disk (pages st.1)
                (fun page => for_each (Pages.annotations page) (scan_import json))) as H.
  match goal with |- context [for_each ?l ?b st] =>
    specialize (H ltac:(
      intros page st'; apply for_each_disk; intros ann st'';
      unfold scan_import; destruct (res_bind _ _) as [ips|e]; [|done];
      apply for_each_disk; intros ipage st3; apply scan_page_disk) st);
    destruct (for_each l b st) end; done.
Qed.

Lemma init_disk pdf_path name year version (w : World) :
  disk (state_of (init pdf_path name year version w)).2 = disk w.
Proof.
  unfold init, read_pdf, fitz_open. simpl.
  destruct (disk w !! pdf_path) as [[ps|]|]; [|done..]. simpl.
  by destruct (walk_pages 0 ps []) as [kept [e|]].
Qed.

(** X8: only [save_pdf] writes files.  Constructing a form, any sequence of
    update calls and a bulk update, whether they return or raise, leave every
    file on disk as it was: what they change lives in the open handle until
    it is saved. *)
Theorem only_save_writes_files :
  (forall pdf_path name year version w,
     disk (state_of (init pdf_path name year version w)).2 = disk w)
  /\ (forall cs st, disk (run_calls cs st).2 = disk st.2)
  /\ (forall json_path st,
        disk (state_of (load_updated_annotaion_json json_path st)).2 = disk st.2).
Proof.
  split; [apply init_disk|]. split; [|apply load_disk].
  intros cs. induction cs as [|c cs IH]; intros st; simpl; [done|].
  rewrite IH. destruct c; apply update_field_disk.
Qed.

Lemma ensure_open_reuses (st : Session) (d : fitz.Document) :
  doc st.1 = Some d -> fitz.is_closed d = false -> fitz.doc_pages d ≠ [] ->
  ensure_open st = Returns d st.
Proof.
  destruct st as [self w]. simpl. intros Hd Hc Hne.
  unfold ensure_open, fitz.len. rewrite Hd, Hc.
  by destruct (fitz.doc_pages d).
Qed.

Lemma store_keeps_shape pi wi widget (d : fitz.Document) :
  fitz.is_closed (fitz.store pi wi widget d) = fitz.is_closed d
  /\ length (fitz.doc_pages (fitz.store pi wi widget d)) = length (fitz.doc_pages d).
Proof.
  unfold fitz.store. destruct (fitz.doc_pages d !! pi) as [[ws|]|]; simpl; try done.
  by rewrite length_insert.
Qed.

Lemma update_field_reuses find missing n v (st : Session) (d : fitz.Document) :
  doc st.1 = Some d -> fitz.is_closed d = false -> fitz.doc_pages d ≠ [] ->
  let st' := state_of (update_field find missing n v st) in
  st'.2 = st.2
  /\ exists d', doc st'.1 = Some d' /\ fitz.is_closed d' = false
                /\ length (fitz.doc_pages d') = length (fitz.doc_pages d).
Proof.
  intros Hd Hc Hne. unfold update_field.
  rewrite (ensure_open_reuses st d Hd Hc Hne).
  match goal with |- context [match ?r with Ok _ => _ | Err _ => _ end] =>
    destruct r as [[[pi [wi widget]] u]|e] end; simpl; [|by eauto].
  assert (Hcommit : forall w', (commit pi wi w' st).2 = st.2
            /\ exists d', doc (commit pi wi w' st).1 = Some d'
                 /\ fitz.is_closed d' = false
                 /\ length (fitz.doc_pages d') = length (fitz.doc_pages d)).
  { intros w'. unfold commit. simpl. rewrite Hd. simpl. split; [done|].
    destruct (store_keeps_shape pi wi w' d) as [H1 H2].
    eexists. split; [done|]. by rewrite H1, H2. }
  destruct (apply_update u widget) as [committed [e|]]; simpl; apply Hcommit.
Qed.

(** X9: chained updates share one handle.  In a session whose handle is
    open on a document with at least one page, any sequence of update calls,
    returning or raising, opens no further handle and writes nothing: the
    world is untouched, and the handle is still open on a document with the
    same number of pages. *)
Theorem chained_updates_reuse_handle (cs : list update_call) (st : Session)
    (d : fitz.Document) :
  doc st.1 = Some d -> fitz.is_closed d = false -> fitz.doc_pages d ≠ [] ->
  (run_calls cs st).2 = st.2
  /\ exists d', doc (run_calls cs st).1 = Some d' /\ fitz.is_closed d' = false
                /\ length (fitz.doc_pages d') = length (fitz.doc_pages d).
Proof.
  revert st d. induction cs as [|c cs IH]; intros st d Hd Hc Hne; simpl.
  - split; [done|]. by exists d.
  - assert (Hstep : (state_of (run_call c st)).2 = st.2
             /\ exists d', doc (state_of (run_call c st)).1 = Some d'
                  /\ fitz.is_closed d' = false
                  /\ length (fitz.doc_pages d') = length (fitz.doc_pages d))
      by (destruct c; by apply update_field_reuses).
    destruct Hstep as (Hw & d' & Hd' & Hc' & Hlen).
    assert (Hne' : fitz.doc_pages d' ≠ []).
    { destruct (fitz.doc_pages d'); [|done]. by destruct (fitz.doc_pages d). }
    destruct (IH _ d' Hd' Hc' Hne') as (Hw2 & d2 & Hd2 & Hc2 & Hlen2).
    split; [congruence|]. exists d2. split; [done|]. split; [done|]. congruence.
Qed.

Lemma chained_updates_reuse_handle_witness :
  let st := state_of (ensure_open (sample_session PNone)) in
  let cs := [ById "f1_01" (PInt 1) (inr {[ "default_value" := PStr "Feb" ]});
             ByLabel "nothing" (PInt 1) (inr ∅)] in
  (run_calls cs st).2 = st.2
  /\ exists d', doc (run_calls cs st).1 = Some d' /\ fitz.is_closed d' = false
                /\ length (fitz.doc_pages d')
                   = length (fitz.doc_pages
                               (fitz.mkDocument
                                  [fitz.GoodPage [sample_widget]; fitz.GoodPage []] false)).
Proof.
  apply chained_updates_reuse_handle.
  - vm_compute. reflexivity.
  - reflexivity.
  - discriminate.
Defined.

(** ** Keys that [from_dict] does not know *)

(** X10: [from_dict] ignores a top-level key other than the four it reads,
    whatever its value; a key inside [position] other than the five fields of
    [Position], or inside [formatting] other than the six fields of
    [Formatting], makes the conversion raise [TypeError]. *)
Theorem from_dict_unknown_keys (data : gmap string pyval) :
  (forall k v,
     k ∉ ["default_value"; "label"; "position"; "formatting"] ->
     UpdateField.from_dict (<[k := v]> data) = UpdateField.from_dict data)
  /\ (forall pos k,
        data !! "position" = Some (PDict pos) ->
        k ∉ Position.fields -> is_Some (pos !! k) ->
        UpdateField.from_dict data = Err TypeError)
  /\ (forall fmt k,
        data !! "formatting" = Some (PDict fmt) ->
        k ∉ Formatting.fields -> is_Some (fmt !! k) ->
        UpdateField.from_dict data = Err TypeError).
Proof.
  split; [|split].
  - intros k v Hk. unfold UpdateField.from_dict, dict_get.
    assert (Hne : forall key, key ∈ ["default_value"; "label"; "position"; "formatting"] ->
                              <[k := v]> data !! key = data !! key).
    { intros key Hkey. apply lookup_insert_ne. by intros ->. }
    rewrite (Hne "position"), (Hne "formatting") by set_solver.
    destruct (UpdateField.position_of _); [|done].
    destruct (UpdateField.formatting_of _); [|done]. simpl.
    by rewrite (Hne "default_value"), (Hne "label") by set_solver.
  - intros pos k Hpos Hk Hsome. unfold UpdateField.from_dict, dict_get.
    rewrite Hpos. simpl. unfold UpdateField.position_of.
    assert (Hne : pos ≠ ∅) by (intros ->; by destruct Hsome as [? ?]).
    apply truthy_dict in Hne. rewrite Hne. unfold Position.of_kwargs.
    rewrite bool_decide_eq_false_2; [done|].
    intros Hdom. apply elem_of_dom in Hsome. by rewrite Hdom in Hsome.
  - intros fmt k Hfmt Hk Hsome. unfold UpdateField.from_dict, dict_get.
    rewrite Hfmt. simpl.
    assert (Hf : UpdateField.formatting_of (PDict fmt) = Err TypeError).
    { unfold UpdateField.formatting_of.
      assert (Hne : fmt ≠ ∅) by (intros ->; by destruct Hsome as [? ?]).
      apply truthy_dict in Hne. rewrite Hne. unfold Formatting.of_kwargs.
      rewrite bool_decide_eq_false_2; [done|].
      intros Hsub. apply elem_of_dom in Hsome. by apply Hsub in Hsome. }
    rewrite Hf.
    assert (Hp : forall v, UpdateField.position_of v = Err TypeError
                           \/ exists p, UpdateField.position_of v = Ok p).
    { intros v. unfold UpdateField.position_of, Position.of_kwargs.
      destruct (truthy v); [|by eauto].
      destruct v; eauto. case_bool_decide; simpl; eauto. }
    by destruct (Hp (default PNone (data !! "position"))) as [-> | [p ->]].
Qed.

Lemma from_dict_unknown_keys_witness :
  UpdateField.from_dict (<["comment" := PStr "draft"]> {[ "label" := PStr "month" ]})
  = UpdateField.from_dict {[ "label" := PStr "month" ]}
  /\ UpdateField.from_dict
       {[ "position" := PDict {[ "x" := PInt 1; "y" := PInt 2; "width" := PInt 3;
                                 "height" := PInt 4; "unit" := PStr "pt";
                                 "page" := PInt 1 ]} ]}
     = Err TypeError
  /\ UpdateField.from_dict {[ "formatting" := PDict {[ "colour" := PStr "red" ]} ]}
     = Err TypeError.
Proof.
  split; [|split].
  - apply (proj1 (from_dict_unknown_keys {[ "label" := PStr "month" ]})).
    apply (bool_decide_unpack _). vm_compute. exact I.
  - apply (proj1 (proj2 (from_dict_unknown_keys
             {[ "position" := PDict {[ "x" := PInt 1; "y" := PInt 2; "width" := PInt 3;
                                       "height" := PInt 4; "unit" := PStr "pt";
                                       "page" := PInt 1 ]} ]}))
             {[ "x" := PInt 1; "y" := PInt 2; "width" := PInt 3;
                "height" := PInt 4; "unit" := PStr "pt"; "page" := PInt 1 ]} "page").
    + vm_compute. reflexivity.
    + apply (bool_decide_unpack _). vm_compute. exact I.
    + exists (PInt 1). vm_compute. reflexivity.
  - apply (proj2 (proj2 (from_dict_unknown_keys
             {[ "formatting" := PDict {[ "colour" := PStr "red" ]} ]}))
             {[ "colour" := PStr "red" ]} "colour").
    + vm_compute. reflexivity.
    + apply (bool_decide_unpack _). vm_compute. exact I.
    + exists (PStr "red"). vm_compute. reflexivity.
Defined.

(** ** What the export holds *)

Ltac read_key H key :=
  let Hk := fresh "Hk" in
  pose proof (f_equal (fun m : gmap string pyval => m !! key) H) as Hk;
  vm_compute in Hk; injection Hk; clear Hk.

Lemma opt_to_py_inj (a b : option string) : opt_to_py a = opt_to_py b -> a = b.
Proof. destruct a, b; simpl; congruence. Qed.

Lemma PDict_inj (m1 m2 : gmap string pyval) : PDict m1 = PDict m2 -> m1 = m2.
Proof. by intros [= ->]. Qed.

Lemma Some_PDict_inj (m1 m2 : gmap string pyval) :
  Some (PDict m1) = Some (PDict m2) -> m1 = m2.
Proof. by intros [= ->]. Qed.

Lemma export_annotation_inj (a b : Annotation.t) :
  export_annotation a = export_annotation b -> a = b.
Proof.
  destruct a as [i t [x y wd h un] [fs ff al ml pt rq] [path dv] lbl].
  destruct b as [i' t' [x' y' wd' h' un'] [fs' ff' al' ml' pt' rq'] [path' dv'] lbl'].
  unfold export_annotation. simpl. intros H%PDict_inj.
  read_key H "id". intros ->.
  read_key H "type". intros ->.
  pose proof (f_equal (fun m : gmap string pyval => m !! "label") H) as Hl.
  simpl in Hl. rewrite !(lookup_insert_ne _ _ "label"), !lookup_insert_eq in Hl by done.
  injection Hl as ->%opt_to_py_inj.
  pose proof (f_equal (fun m : gmap string pyval => m !! "position") H) as Hp.
  simpl in Hp. rewrite !(lookup_insert_ne _ _ "position"), !lookup_insert_eq in Hp by done.
  apply Some_PDict_inj in Hp.
  read_key Hp "x". intros ->. read_key Hp "y". intros ->.
  read_key Hp "width". intros ->. read_key Hp "height". intros ->.
  read_key Hp "unit". intros ->.
  pose proof (f_equal (fun m : gmap string pyval => m !! "formatting") H) as Hf.
  simpl in Hf.
  rewrite !(lookup_insert_ne _ _ "formatting"), !lookup_insert_eq in Hf by done.
  apply Some_PDict_inj in Hf.
  read_key Hf "font_size". intros ->. read_key Hf "font_family". intros ->.
  read_key Hf "alignment". intros ->. read_key Hf "max_length". intros ->.
  read_key Hf "pattern". intros ->. read_key Hf "required". intros ->.
  pose proof (f_equal (fun m : gmap string pyval => m !! "data_reference") H) as Hr.
  simpl in Hr.
  rewrite !(lookup_insert_ne _ _ "data_reference") in Hr by done.
  rewrite !lookup_singleton_eq in Hr.
  apply Some_PDict_inj in Hr.
  read_key Hr "path". intros ->.
  pose proof (f_equal (fun m : gmap string pyval => m !! "default_value") Hr) as Hd.
  simpl in Hd.
  rewrite !(lookup_insert_ne _ _ "default_value") in Hd by done.
  rewrite !lookup_singleton_eq in Hd.
  by injection Hd as ->%opt_to_py_inj.
Qed.

Lemma fmap_injective {A B} (f : A -> B) (l1 l2 : list A) :
  (forall a b, f a = f b -> a = b) -> f <$> l1 = f <$> l2 -> l1 = l2.
Proof.
  intros Hf. revert l2. induction l1 as [|a l1 IH]; intros [|b l2]; simpl; try done.
  intros [= Hab Hl]. f_equal; [by apply Hf|by apply IH].
Qed.

Lemma export_page_inj (p q : Pages.t) : export_page p = export_page q -> p = q.
Proof.
  destruct p as [n anns], q as [n' anns']. unfold export_page. simpl.
  intros H%PDict_inj.
  pose proof (f_equal (fun m : gmap string pyval => m !! "page_number") H) as Hn.
  simpl in Hn. rewrite !lookup_insert_eq in Hn. injection Hn as ->.
  pose proof (f_equal (fun m : gmap string pyval => m !! "annotations") H) as Ha.
  simpl in Ha. rewrite !(lookup_insert_ne _ _ "annotations") in Ha by done.
  rewrite !lookup_singleton_eq in Ha. injection Ha as Ha.
  f_equal. eapply fmap_injective; [apply export_annotation_inj|done].
Qed.

(** X11: the export loses nothing.  Two forms with the same export have the
    same name, year, version and path and the same tree: every page number and
    every attribute of every annotation, position, formatting and data
    reference can be read off the exported document. *)
Theorem export_to_json_lossless (a b : AnnotationForm.t) :
  export_to_json a = export_to_json b ->
  pdf_path a = pdf_path b /\ name a = name b /\ year a = year b
  /\ version a = version b /\ pages a = pages b.
Proof.
  unfold export_to_json. intros H%PDict_inj.
  pose proof (f_equal (fun m : gmap string pyval => m !! "pdf_info") H) as Hi.
  simpl in Hi. rewrite !lookup_insert_eq in Hi. apply Some_PDict_inj in Hi.
  pose proof (f_equal (fun m : gmap string pyval => m !! "pages") H) as Hp.
  simpl in Hp. rewrite !(lookup_insert_ne _ _ "pages") in Hp by done.
  rewrite !lookup_singleton_eq in Hp. injection Hp as Hp.
  apply (fmap_injective _ _ _ export_page_inj) in Hp.
  read_key Hi "name". intros Hname.
  read_key Hi "year". intros Hyear.
  read_key Hi "version". intros Hversion.
  read_key Hi "path". intros Hpath.
  done.
Qed.

Lemma export_to_json_lossless_witness :
  let b := set_doc (Some (fitz.mkDocument [] true)) (sample_session PNone).1 in
  pdf_path (sample_session PNone).1 = pdf_path b
  /\ name (sample_session PNone).1 = name b
  /\ year (sample_session PNone).1 = year b
  /\ version (sample_session PNone).1 = version b
  /\ pages (sample_session PNone).1 = pages b.
Proof.
  apply export_to_json_lossless. reflexivity.
Defined.

(** ** Loading a form's own export *)

Lemma forallb_fmap_true {A B} (f : B -> bool) (g : A -> B) (l : list A) :
  (forall a, f (g a) = true) -> forallb f (g <$> l) = true.
Proof.
  intros H. induction l as [|a l IH]; [done|].
  change (f (g a) && forallb f (g <$> l) = true). by rewrite H, IH.
Qed.

Lemma export_annotation_shape (ann : Annotation.t) :
  annotation_conforms (export_annotation ann) = true
  /\ field (export_annotation ann) "id" = PStr (Annotation.id ann).
Proof.
  destruct ann as [i t [x y wd h un] [fs ff al ml pt rq] [path dv] lbl].
  split; vm_compute; reflexivity.
Qed.

Lemma export_page_shape (page : Pages.t) :
  imported_annotations (export_page page) = export_annotation <$> Pages.annotations page
  /\ field (export_page page) "page_number" = PInt (Pages.page_number page)
  /\ page_conforms (export_page page) = true.
Proof.
  destruct page as [n anns].
  assert (Hl : forall v1 v2 : pyval,
            ({[ "page_number" := v1; "annotations" := v2 ]} : gmap string pyval)
              !! "annotations" = Some v2
            /\ ({[ "page_number" := v1; "annotations" := v2 ]} : gmap string pyval)
                 !! "page_number" = Some v1)
    by (intros v1 v2; split; vm_compute; reflexivity).
  unfold imported_annotations, field, export_page, page_conforms, dict_get.
  cbn [Pages.page_number Pages.annotations].
  destruct (Hl (PInt n) (PList (export_annotation <$> anns))) as [-> ->].
  cbn [default items]. repeat split.
  apply forallb_fmap_true. intros a. apply export_annotation_shape.
Qed.

Lemma export_to_json_shape (self : AnnotationForm.t) :
  imported_pages (export_to_json self) = export_page <$> pages self
  /\ conforms (export_to_json self) = true.
Proof.
  assert (Hl : forall v1 v2 : pyval,
            ({[ "pdf_info" := v1; "pages" := v2 ]} : gmap string pyval) !! "pages"
            = Some v2)
    by (intros v1 v2; vm_compute; reflexivity).
  unfold imported_pages, field, export_to_json, conforms, dict_get.
  rewrite Hl. cbn [default items]. split; [done|].
  apply forallb_fmap_true. intros p. apply export_page_shape.
Qed.

Lemma export_to_json_pages (self : AnnotationForm.t) :
  py_get (export_to_json self) "pages" = Ok (PList (export_page <$> pages self)).
Proof.
  assert (Hl : forall v1 v2 : pyval,
            ({[ "pdf_info" := v1; "pages" := v2 ]} : gmap string pyval) !! "pages"
            = Some v2)
    by (intros v1 v2; vm_compute; reflexivity).
  unfold export_to_json, py_get. by rewrite Hl.
Qed.

(** X12: a form's own export, loaded back.  The export always has the shape
    the bulk update relies on.  When the tree is empty (a document without
    fields) the export's [pages] array is empty and loading it raises the
    invalid-json exception; otherwise loading it is a sequence of update
    calls that includes, for every live annotation, a call with the
    annotation's own id, the number of its own page and the payload built from
    its own export. *)
Theorem own_export_loaded_back (json_path : string) (st : Session) :
  read_json json_path st.2 = Ok (export_to_json st.1) ->
  conforms (export_to_json st.1) = true
  /\ (pages st.1 = [] ->
      load_updated_annotaion_json json_path st
      = Raises (Exception "Invalid updated annotation json") st)
  /\ (pages st.1 ≠ [] ->
      load_updated_annotaion_json json_path st
      = apply_calls (bulk_calls (pages st.1) (export_to_json st.1)) st)
  /\ (forall page ann,
        page ∈ pages st.1 -> ann ∈ Pages.annotations page ->
        mk_call (Annotation.id ann) (PInt (Pages.page_number page))
                (imported_body (export_annotation ann))
        ∈ bulk_calls (pages st.1) (export_to_json st.1)).
Proof.
  intros Hread. destruct (export_to_json_shape st.1) as [Hpages Hconf].
  split; [done|]. split; [|split].
  - intros Hempty. unfold load_updated_annotaion_json.
    by rewrite Hread, export_to_json_pages, Hempty.
  - intros Hne. apply load_as_calls; [done..|].
    rewrite Hpages. by destruct (pages st.1).
  - intros page ann Hpage Hann. apply elem_of_bulk_calls.
    exists page, ann, (export_page page), (export_annotation ann).
    destruct (export_page_shape page) as (Hanns & Hnum & _).
    split; [done|]. split; [done|].
    split; [rewrite Hpages; by apply list_elem_of_fmap_2|].
    split; [rewrite Hanns; by apply list_elem_of_fmap_2|].
    split; [apply export_annotation_shape|]. by rewrite Hnum.
Qed.

Lemma own_export_loaded_back_witness :
  let st := sample_session (export_to_json (sample_session PNone).1) in
  conforms (export_to_json st.1) = true
  /\ (pages st.1 = [] ->
      load_updated_annotaion_json "updated.json" st
      = Raises (Exception "Invalid updated annotation json") st)
  /\ (pages st.1 ≠ [] ->
      load_updated_annotaion_json "updated.json" st
      = apply_calls (bulk_calls (pages st.1) (export_to_json st.1)) st)
  /\ (forall page ann,
        page ∈ pages st.1 -> ann ∈ Pages.annotations page ->
        mk_call (Annotation.id ann) (PInt (Pages.page_number page))
                (imported_body (export_annotation ann))
        ∈ bulk_calls (pages st.1) (export_to_json st.1)).
Proof.
  apply own_export_loaded_back. vm_compute. reflexivity.
Defined.

(** ** What extraction builds *)

Lemma map_pymupdf_field_type_range (t : string) :
  map_pymupdf_field_type t ∈ annotation_types.
Proof.
  unfold map_pymupdf_field_type. cbv zeta.
  match goal with |- default _ (?m !! t) ∈ _ =>
    assert (Hall : map_Forall (fun _ v => v ∈ annotation_types) m)
  end.
  { repeat (apply map_Forall_insert_2; [by (apply (bool_decide_unpack _); vm_compute)|]).
    apply map_Forall_empty. }
  match goal with |- default _ ?o ∈ _ => destruct o as [v|] eqn:Hl end; simpl.
  - by apply (Hall t v).
  - apply (bool_decide_unpack _). by vm_compute.
Qed.

Lemma extract_widget_well_formed (n : nat) (widget : fitz.Widget) (ann : Annotation.t) :
  extract_widget n widget = Ok ann -> well_formed_annotation ann.
Proof.
  unfold extract_widget.
  destruct (py_int _) as [x|]; [|done]. destruct (py_int _) as [y|]; [|done].
  destruct (py_int _) as [wd|]; [|done]. destruct (py_int _) as [ht|]; [|done].
  simpl. intros [= <-]. unfold well_formed_annotation. simpl.
  split.
  { destruct (fitz.field_name widget) as [s|]; simpl; [|done].
    by destruct (String.eqb_spec s ""). }
  split; [done|]. split; [done|].
  split; [apply map_pymupdf_field_type_range|].
  split; [done|]. split; [done|]. by exists x, y, wd, ht.
Qed.

Lemma walk_widgets_well_formed (ws : list fitz.Widget) : forall acc,
  Forall well_formed_annotation acc ->
  Forall well_formed_annotation (walk_widgets ws acc).
Proof.
  induction ws as [|w ws IH]; intros acc Hacc; simpl; [done|].
  destruct (extract_widget (length acc) w) as [a|e] eqn:He; [|by apply IH].
  apply IH, Forall_app. split; [done|].
  apply Forall_singleton. by eapply extract_widget_well_formed.
Qed.

Lemma walk_pages_well_formed (todo : list fitz.Page) : forall n acc,
  Forall well_formed_page acc ->
  Forall well_formed_page (walk_pages n todo acc).1.
Proof.
  induction todo as [|p todo IH]; intros n acc Hacc; simpl; [done|].
  destruct p as [ws|]; [|done].
  pose proof (walk_widgets_well_formed ws [] (Forall_nil_2 _)) as Hws.
  destruct (walk_widgets ws []) as [|a anns]; [by apply IH|].
  apply IH, Forall_app. split; [done|]. apply Forall_singleton.
  split; [simpl; lia|]. by split.
Qed.

(** X13: what every constructed tree satisfies, also the partial tree left
    behind when construction raises.  Every page entry has a page number of at
    least 1 and at least one annotation; every annotation has a non-empty id,
    a data reference whose path is that id and whose default value is a
    string (never [None]), one of the six annotation types, the fixed default
    formatting, and an integer position in pt. *)
Theorem constructed_tree_well_formed pdf_path name year version (w : World) :
  Forall well_formed_page (pages (state_of (init pdf_path name year version w)).1).
Proof.
  unfold init, read_pdf, fitz_open. simpl.
  destruct (disk w !! pdf_path) as [[ps|]|]; simpl; [|done..].
  pose proof (walk_pages_well_formed ps 0 [] (Forall_nil_2 _)) as H.
  by destruct (walk_pages 0 ps []) as [kept [e|]].
Qed.

Lemma walk_widgets_length (ws : list fitz.Widget) :
  length (walk_widgets ws []) = length (List.filter extracts ws).
Proof.
  destruct (walk_widgets_spec ws []) as (new & Hw & Hl & _). by rewrite Hw.
Qed.

Lemma walk_pages_counts (todo : list fitz.Page) : forall n acc,
  forallb loadable todo = true ->
  sum_list_with (fun page => length (Pages.annotations page)) (walk_pages n todo acc).1
  = (sum_list_with (fun page => length (Pages.annotations page)) acc
     + sum_list_with extracted_count todo)%nat
  /\ length (walk_pages n todo acc).1
     = (length acc
        + length (List.filter (fun p => negb (Nat.eqb (extracted_count p) 0)) todo))%nat.
Proof.
  induction todo as [|p todo IH]; intros n acc Hall; simpl; [lia|].
  destruct p as [ws|]; [|done]. simpl in Hall |- *.
  pose proof (walk_widgets_length ws) as Hlen.
  destruct (walk_widgets ws []) as [|a anns] eqn:Hw; simpl in Hlen.
  - rewrite <- Hlen. simpl. by apply IH.
  - rewrite <- Hlen. simpl.
    destruct (IH (S n) (acc ++ [Pages.mk (Z.of_nat n + 1) (a :: anns)])%list Hall)
      as [-> ->].
    rewrite sum_list_with_app, length_app. simpl. lia.
Qed.

(** X14: the figures of the summary.  After construction from a document
    whose pages can all be loaded, the total that [print_summary] reports is
    the number of widgets of the whole document whose extraction did not
    raise, and the number of pages it reports is the number of pages with at
    least one such widget. *)
Theorem summary_counts_extracted_widgets pdf_path name year version (w : World)
    (ps : list fitz.Page) :
  disk w !! pdf_path = Some (PdfFile ps) ->
  forallb loadable ps = true ->
  let self := (state_of (init pdf_path name year version w)).1 in
  total_annotations self = sum_list_with extracted_count ps
  /\ length (pages self)
     = length (List.filter (fun p => negb (Nat.eqb (extracted_count p) 0)) ps).
Proof.
  intros Hf Hall. rewrite (init_loadable _ _ _ _ w ps Hf Hall). simpl.
  unfold total_annotations. simpl.
  destruct (walk_pages_counts ps 0 [] Hall) as [-> ->]. done.
Qed.

Lemma summary_counts_extracted_widgets_witness :
  let self := (state_of (init "f1040.pdf" "f1040" 2024 "2024" sample_world)).1 in
  total_annotations self
  = sum_list_with extracted_count [fitz.GoodPage [sample_widget]; fitz.GoodPage []]
  /\ length (pages self)
     = length (List.filter (fun p => negb (Nat.eqb (extracted_count p) 0))
                 [fitz.GoodPage [sample_widget]; fitz.GoodPage []]).
Proof.
  apply (summary_counts_extracted_widgets "f1040.pdf" "f1040" 2024 "2024" sample_world).
  - vm_compute. reflexivity.
  - reflexivity.
Defined.

(** ** Field types and names *)

Lemma map_pymupdf_field_type_unknown (t : string) :
  t ∉ known_field_types -> map_pymupdf_field_type t = "text".
Proof.
  intros Ht. unfold map_pymupdf_field_type. cbv zeta.
  match goal with |- default _ (?m !! t) = _ =>
    assert (Hdom : dom m = list_to_set known_field_types)
      by (vm_compute; reflexivity);
    assert (Hnone : m !! t = None)
  end.
  { apply not_elem_of_dom. rewrite Hdom. by rewrite elem_of_list_to_set. }
  by rewrite Hnone.
Qed.

(** X15: the type of an extracted annotation.  A widget whose field type is
    missing, empty or not one of the six names the engine is known to use is
    extracted as [text]; and two widgets with known field types get the same
    annotation type only when their field types are the same. *)
Theorem extracted_type_follows_field_type (n m : nat) (w1 w2 : fitz.Widget)
    (a1 a2 : Annotation.t) :
  extract_widget n w1 = Ok a1 ->
  extract_widget m w2 = Ok a2 ->
  (str_or (fitz.field_type_string w1) "" ∉ known_field_types ->
   Annotation.type a1 = "text")
  /\ (str_or (fitz.field_type_string w1) "" ∈ known_field_types ->
      str_or (fitz.field_type_string w2) "" ∈ known_field_types ->
      Annotation.type a1 = Annotation.type a2 ->
      fitz.field_type_string w1 = fitz.field_type_string w2).
Proof.
  intros H1 H2.
  assert (Ht : forall k w a, extract_widget k w = Ok a ->
            Annotation.type a
            = map_pymupdf_field_type (str_or (fitz.field_type_string w) "")).
  { intros k w a. unfold extract_widget.
    destruct (py_int _); [|done]. destruct (py_int _); [|done].
    destruct (py_int _); [|done]. destruct (py_int _); [|done].
    simpl. by intros [= <-]. }
  rewrite (Ht _ _ _ H1), (Ht _ _ _ H2). split.
  - apply map_pymupdf_field_type_unknown.
  - intros Hk1 Hk2 Heq.
    assert (Hs : forall o s, str_or o "" = s -> s ≠ "" -> o = Some s).
    { intros [s'|] s; simpl; [|intros <- Hne; by destruct Hne].
      destruct (String.eqb_spec s' ""); [intros <- Hne; by destruct Hne|by intros ->]. }
    assert (Hinj : str_or (fitz.field_type_string w1) ""
                   = str_or (fitz.field_type_string w2) "").
    { revert Hk1 Hk2 Heq.
      generalize (str_or (fitz.field_type_string w1) "").
      generalize (str_or (fitz.field_type_string w2) "").
      intros t2 t1 Hk1 Hk2.
      unfold known_field_types in *.
      repeat (apply elem_of_cons in Hk1 as [->|Hk1]);
        [| | | | | |by apply elem_of_nil in Hk1];
        repeat (apply elem_of_cons in Hk2 as [->|Hk2]);
        try (by apply elem_of_nil in Hk2);
        vm_compute; congruence. }
    assert (Hne : str_or (fitz.field_type_string w1) "" ≠ "").
    { intros Hempty. rewrite Hempty in Hk1. revert Hk1.
      apply (bool_decide_unpack _). by vm_compute. }
    pose proof (Hs _ _ eq_refl Hne) as E1.
    rewrite Hinj in Hne. pose proof (Hs _ _ eq_refl Hne) as E2.
    congruence.
Qed.

Lemma extracted_type_follows_field_type_witness :
  exists a1 a2,
    extract_widget 0 sample_widget = Ok a1
    /\ extract_widget 1 offset_widget = Ok a2
    /\ (str_or (fitz.field_type_string sample_widget) "" ∉ known_field_types ->
        Annotation.type a1 = "text")
    /\ (str_or (fitz.field_type_string sample_widget) "" ∈ known_field_types ->
        str_or (fitz.field_type_string offset_widget) "" ∈ known_field_types ->
        Annotation.type a1 = Annotation.type a2 ->
        fitz.field_type_string sample_widget = fitz.field_type_string offset_widget).
Proof.
  eexists _, _.
  split; [vm_compute; reflexivity|]. split; [vm_compute; reflexivity|].
  apply (extracted_type_follows_field_type 0 1 sample_widget offset_widget);
    vm_compute; reflexivity.
Defined.

Lemma find_widget_by_annotation_id_name ws key wi widget :
  find_widget_by_annotation_id ws key = Some (wi, widget) ->
  fitz.field_name widget = Some key.
Proof.
  revert wi. induction ws as [|w ws IH]; intros wi; simpl; [done|].
  case_bool_decide; [by intros [= <- <-]|].
  destruct (find_widget_by_annotation_id ws key) as [[k w']|]; simpl; [|done].
  intros [= <- <-]. by eapply IH.
Qed.

(** X16: the placeholder id of an unnamed widget does not lead back to it.
    A widget without a name, or with an empty one, is extracted under the id
    [field_<n>], [n] being the number of annotations collected before it on
    its page; lookup by that id never returns this widget, on any page: an
    update addressed to the annotation's id cannot reach the widget it was
    extracted from. *)
Theorem unnamed_widget_not_found_by_id (n : nat) (widget : fitz.Widget)
    (ann : Annotation.t) :
  extract_widget n widget = Ok ann ->
  fitz.field_name widget = None \/ fitz.field_name widget = Some "" ->
  Annotation.id ann = "field_" +:+ pretty n
  /\ forall ws wi,
       find_widget_by_annotation_id ws (Annotation.id ann) ≠ Some (wi, widget).
Proof.
  intros Hex Hname.
  assert (Hid : Annotation.id ann = "field_" +:+ pretty n).
  { unfold extract_widget in Hex.
    destruct (py_int _); [|done]. destruct (py_int _); [|done].
    destruct (py_int _); [|done]. destruct (py_int _); [|done].
    simpl in Hex. injection Hex as <-. simpl.
    by destruct Hname as [-> | ->]. }
  split; [done|]. intros ws wi Hfind.
  apply find_widget_by_annotation_id_name in Hfind. rewrite Hid in Hfind.
  destruct Hname as [Hn | Hn]; rewrite Hn in Hfind; [done|].
  injection Hfind. discriminate.
Qed.

Lemma unnamed_widget_not_found_by_id_witness :
  exists ann,
    extract_widget 3 (fitz.set_field_label None
                        (fitz.mkWidget None (Some "CheckBox") None None
                           (int_rect 0 0 10 10) 0 None)) = Ok ann
    /\ Annotation.id ann = "field_" +:+ pretty 3%nat
    /\ forall ws wi,
         find_widget_by_annotation_id ws (Annotation.id ann)
         ≠ Some (wi, fitz.set_field_label None
                       (fitz.mkWidget None (Some "CheckBox") None None
                          (int_rect 0 0 10 10) 0 None)).
Proof.
  eexists. split; [vm_compute; reflexivity|].
  apply (unnamed_widget_not_found_by_id 3).
  - vm_compute. reflexivity.
  - by left.
Defined.

(** ** Updates that change nothing *)

Lemma commit_same pi wi widget (st : Session) d ws :
  doc st.1 = Some d ->
  fitz.doc_pages d !! pi = Some (fitz.GoodPage ws) ->
  ws !! wi = Some widget ->
  commit pi wi widget st = st.
Proof.
  destruct st as [[path nm yr ver dc pgs] world]. simpl. intros -> Hp Hw.
  unfold commit, set_doc, fitz.store. simpl. rewrite Hp.
  rewrite (list_insert_id ws wi widget Hw), (list_insert_id _ pi _ Hp).
  by destruct d.
Qed.

Lemma update_field_nothing_to_apply find missing (n : Z) (data : gmap string pyval)
    (st st1 : Session) d ws wi widget :
  finds_in_place find ->
  ensure_open st = Returns d st1 -> 1 <= n ->
  fitz.doc_pages d !! Z.to_nat (n - 1) = Some (fitz.GoodPage ws) ->
  find ws = Some (wi, widget) ->
  truthy (dict_get data "default_value") = false ->
  truthy (dict_get data "label") = false ->
  truthy (dict_get data "position") = false ->
  truthy (dict_get data "formatting") = false ->
  update_field find missing (PInt n) (inr data) st = Returns true st1.
Proof.
  intros Hplace Ho Hn Hl Hfind Hv Hlb Hp Hf.
  rewrite (update_field_located _ _ n _ st d st1 ws Ho Hn Hl), Hfind.
  cbn [normalize]. unfold UpdateField.from_dict.
  rewrite (position_of_falsy _ Hp), (formatting_of_falsy _ Hf). simpl.
  unfold apply_update, assign_value, assign_label. simpl. rewrite Hv, Hlb.
  f_equal. eapply commit_same; [by eapply ensure_open_returns|done|by apply Hplace].
Qed.

(** X17: a payload with nothing to apply.  When value, label, position and
    formatting of a dict payload are all absent or falsy (for instance the
    empty dict, or empty strings and empty mappings), an update by id or by
    label that finds its widget returns true and leaves the session exactly
    as it was once the handle was open: no widget changes. *)
Theorem update_with_nothing_to_apply (key : string) (n : Z) (data : gmap string pyval)
    (st st1 : Session) (d : fitz.Document) (ws : list fitz.Widget) :
  ensure_open st = Returns d st1 -> 1 <= n ->
  fitz.doc_pages d !! Z.to_nat (n - 1) = Some (fitz.GoodPage ws) ->
  truthy (dict_get data "default_value") = false ->
  truthy (dict_get data "label") = false ->
  truthy (dict_get data "position") = false ->
  truthy (dict_get data "formatting") = false ->
  (is_Some (find_widget_by_annotation_id ws key) ->
   update_field_by_anotation_id_and_page_number key (PInt n) (inr data) st
   = Returns true st1)
  /\ (is_Some (find_widget_by_label ws key) ->
      update_field_by_label_and_page_number key (PInt n) (inr data) st
      = Returns true st1).
Proof.
  intros Ho Hn Hl Hv Hlb Hp Hf. split; intros [[wi widget] Hfind].
  - eapply update_field_nothing_to_apply; try done.
    intros ws' wi' w'. apply find_widget_by_annotation_id_lookup.
  - eapply update_field_nothing_to_apply; try done.
    intros ws' wi' w'. apply find_widget_by_label_lookup.
Qed.

Lemma update_with_nothing_to_apply_witness :
  let st := sample_session PNone in
  let st1 := state_of (ensure_open st) in
  let data : gmap string pyval :=
    {[ "default_value" := PStr ""; "position" := PDict ∅; "label" := PNone ]} in
  update_field_by_anotation_id_and_page_number "f1_01" (PInt 1) (inr data) st
  = Returns true st1
  /\ update_field_by_label_and_page_number "month" (PInt 1) (inr data) st
     = Returns true st1.
Proof.
  intros st st1 data.
  pose proof (update_with_nothing_to_apply "f1_01" 1 data st st1
                (fitz.mkDocument [fitz.GoodPage [sample_widget]; fitz.GoodPage []] false)
                [sample_widget]
                ltac:(vm_compute; reflexivity) ltac:(lia) ltac:(vm_compute; reflexivity)
                ltac:(vm_compute; reflexivity) ltac:(vm_compute; reflexivity)
                ltac:(vm_compute; reflexivity) ltac:(vm_compute; reflexivity)) as [H1 _].
  pose proof (update_with_nothing_to_apply "month" 1 data st st1
                (fitz.mkDocument [fitz.GoodPage [sample_widget]; fitz.GoodPage []] false)
                [sample_widget]
                ltac:(vm_compute; reflexivity) ltac:(lia) ltac:(vm_compute; reflexivity)
                ltac:(vm_compute; reflexivity) ltac:(vm_compute; reflexivity)
                ltac:(vm_compute; reflexivity) ltac:(vm_compute; reflexivity)) as [_ H2].
  split.
  - apply H1. eexists. vm_compute. reflexivity.
  - apply H2. eexists. vm_compute. reflexivity.
Defined.

Lemma apply_update_idempotent u w w' :
  apply_update u w = (w', None) ->
  apply_update u w' = (w', None) /\ fitz.field_name w' = fitz.field_name w.
Proof.
  destruct u as [dv lbl pos fmt], w as [nm ty val lab rc fsz fnt].
  unfold apply_update, assign_value, assign_rect, assign_formatting, assign_label.
  cbn [UpdateField.default_value UpdateField.label UpdateField.position
       UpdateField.formatting res_bind].
  destruct (truthy dv) eqn:Hdv; [destruct dv; try done|];
  (destruct pos as [[x y wd h un]|];
   [cbn [Position.x Position.y Position.width Position.height];
    destruct (py_num x), (py_num y), (py_num wd), (py_num h); try done|]);
  (destruct fmt as [[fs ff al ml pt rq]|];
   [cbn [Formatting.font_size Formatting.font_family];
    (destruct (truthy fs) eqn:Hfs; [destruct (py_num fs); try done|]);
    (destruct (truthy ff) eqn:Hff; [destruct ff; try done|])|]);
  (destruct (truthy lbl) eqn:Hlbl; [destruct lbl; try done|]);
  cbn; intros [= <-]; cbn; rewrite ?Hdv, ?Hfs, ?Hff, ?Hlbl; cbn; done.
Qed.

Lemma find_widget_by_annotation_id_insert ws key wi w w' :
  find_widget_by_annotation_id ws key = Some (wi, w) ->
  fitz.field_name w' = fitz.field_name w ->
  find_widget_by_annotation_id (<[wi := w']> ws) key = Some (wi, w').
Proof.
  revert wi. induction ws as [|w0 ws IH]; intros wi; simpl; [done|].
  case_bool_decide as Hhead.
  - intros [= <- <-] Hname. simpl. by rewrite bool_decide_eq_true_2 by congruence.
  - destruct (find_widget_by_annotation_id ws key) as [[k w1]|] eqn:Hrest; simpl; [|done].
    intros [= <- <-] Hname. simpl. rewrite bool_decide_eq_false_2 by done.
    by rewrite (IH k eq_refl Hname).
Qed.

Lemma getitem_store d i pi ws wi w' :
  fitz.getitem d i = Ok (pi, ws) ->
  fitz.getitem (fitz.store pi wi w' d) i = Ok (pi, <[wi := w']> ws).
Proof.
  intros Hg. pose proof (getitem_lookup _ _ _ _ Hg) as Hl. revert Hg.
  unfold fitz.getitem, fitz.store. rewrite Hl. simpl. rewrite length_insert.
  destruct (fitz.is_closed d); [done|].
  destruct (Z.leb _ _); [done|]. destruct (Z.eqb _ _); [done|].
  destruct (fitz.doc_pages d !! Z.to_nat _) as [[ws'|]|] eqn:Hk; [|done..].
  intros [= <- <-]. by rewrite list_lookup_insert_eq by (by eapply lookup_lt_Some).
Qed.

(** X18: an update by id can be repeated.  When an update by id has
    returned true, the same call made again in the session it left returns
    true and changes nothing: the widget is found again under its name, which
    no update changes, and every assignment writes what is already there. *)
Theorem update_by_id_idempotent (annotation_id : string) (page_number : pyval)
    (field_value : UpdateField.t + gmap string pyval) (st st2 : Session) :
  update_field_by_anotation_id_and_page_number annotation_id page_number field_value st
  = Returns true st2 ->
  update_field_by_anotation_id_and_page_number annotation_id page_number field_value st2
  = Returns true st2.
Proof.
  unfold update_field_by_anotation_id_and_page_number, update_field.
  destruct (ensure_open st) as [d st1|e st1] eqn:Ho; [|done].
  destruct (page_index page_number) as [i|]; [|done]. simpl.
  destruct (fitz.getitem d i) as [[pi ws]|] eqn:Hg; [|done]. simpl.
  destruct (find_widget_by_annotation_id ws annotation_id) as [[wi widget]|] eqn:Hfind;
    [|done]. simpl.
  destruct (normalize field_value) as [u|]; [|done]. simpl.
  destruct (apply_update u widget) as [committed [e|]] eqn:Ha; [done|].
  intros [= <-].
  destruct (apply_update_idempotent _ _ _ Ha) as [Ha2 Hname].
  pose proof (ensure_open_returns _ _ _ Ho) as Hd.
  pose proof (ensure_open_returns_open _ _ _ Ho) as Hc.
  pose proof (getitem_lookup _ _ _ _ Hg) as Hl.
  assert (Hd2 : doc (commit pi wi committed st1).1
                = Some (fitz.store pi wi committed d))
    by (unfold commit; simpl; by rewrite Hd).
  destruct (store_keeps_shape pi wi committed d) as [Hc2 Hlen2].
  rewrite (ensure_open_reuses (commit pi wi committed st1) _ Hd2).
  - rewrite (getitem_store _ _ _ _ wi committed Hg). simpl.
    rewrite (find_widget_by_annotation_id_insert _ _ _ _ _ Hfind Hname). simpl.
    rewrite Ha2. f_equal.
    eapply commit_same; [exact Hd2| |].
    + unfold fitz.store. rewrite Hl. simpl.
      apply list_lookup_insert_eq. by eapply lookup_lt_Some.
    + apply list_lookup_insert_eq. eapply lookup_lt_Some.
      by eapply find_widget_by_annotation_id_lookup.
  - congruence.
  - intros Hnil. apply (f_equal length) in Hnil. rewrite Hlen2 in Hnil.
    apply lookup_lt_Some in Hl. simpl in Hnil. lia.
Qed.

Lemma update_by_id_idempotent_witness :
  exists st2,
    update_field_by_anotation_id_and_page_number "f1_01" (PInt 1) (inr main_payload)
      (sample_session PNone) = Returns true st2
    /\ update_field_by_anotation_id_and_page_number "f1_01" (PInt 1) (inr main_payload) st2
       = Returns true st2.
Proof.
  eexists. split; [vm_compute; reflexivity|].
  apply (update_by_id_idempotent "f1_01" (PInt 1) (inr main_payload)
           (sample_session PNone)).
  vm_compute. reflexivity.
Defined.

(** ** A bulk update that fails *)

(** X19: a bulk update stops at the first call that raises and undoes
    nothing.  On a conforming import with at least one page, when the calls
    before some call all return and that call raises, the bulk update raises
    the same exception in the state that call left: the earlier updates stay
    applied and the later ones are not attempted. *)
Theorem bulk_update_stops_at_first_failure (json_path : string) (json : pyval)
    (st st1 st2 : Session) (before after : list bulk_call) (c : bulk_call) (e : exn) :
  read_json json_path st.2 = Ok json ->
  conforms json = true ->
  imported_pages json ≠ [] ->
  bulk_calls (pages st.1) json = (before ++ c :: after)%list ->
  apply_calls before st = Returns true st1 ->
  update_field_by_anotation_id_and_page_number
    (call_id c) (call_page_number c) (inr (call_body c)) st1 = Raises e st2 ->
  load_updated_annotaion_json json_path st = Raises e st2.
Proof.
  intros Hread Hconf Hne Hcalls Hbefore Hc.
  rewrite (load_as_calls json_path json st Hread Hconf Hne), Hcalls.
  rewrite apply_calls_app, Hbefore. simpl. by rewrite Hc.
Qed.

Lemma bulk_update_stops_at_first_failure_witness :
  exists st1 st2,
    apply_calls
      [mk_call "f1_01" (PInt 1)
         (imported_body (PDict {[ "id" := PStr "f1_01"; "label" := PStr "month";
                                  "data_reference" :=
                                    PDict {[ "path" := PStr "f1_01";
                                             "default_value" := PStr "Feb" ]} ]}))]
      (sample_session twice_import) = Returns true st1
    /\ load_updated_annotaion_json "updated.json" (sample_session twice_import)
       = Raises (Exception "Widget with annotation id f1_01 not found") st2
    /\ field_values st2 = Some [Some [Some "Feb"]; Some []].
Proof.
  eexists _, _.
  split; [vm_compute; reflexivity|].
  split.
  - eapply (bulk_update_stops_at_first_failure "updated.json" twice_import
              (sample_session twice_import) _ _
              [mk_call "f1_01" (PInt 1)
                 (imported_body
                    (PDict {[ "id" := PStr "f1_01"; "label" := PStr "month";
                              "data_reference" :=
                                PDict {[ "path" := PStr "f1_01";
                                         "default_value" := PStr "Feb" ]} ]}))]
              []
              (mk_call "f1_01" (PInt 2)
                 (imported_body
                    (PDict {[ "id" := PStr "f1_01"; "label" := PStr "year";
                              "data_reference" :=
                                PDict {[ "path" := PStr "f1_01";
                                         "default_value" := PStr "Mar" ]} ]})))).
    + vm_compute. reflexivity.
    + vm_compute. reflexivity.
    + intros H. vm_compute in H. discriminate H.
    + vm_compute. reflexivity.
    + vm_compute. reflexivity.
    + vm_compute. reflexivity.
  - vm_compute. reflexivity.
Defined.

(** X20: imports that do not have the shape of an export.  When the tree has
    no page entry, any import whose [pages] value is truthy is accepted
    unread: the bulk update returns true and changes nothing.  When the tree
    has a first annotation, an import whose [pages] value is a number, whose
    first page is not an object, or whose first page has no [annotations],
    makes the bulk update raise before any update call, the session being as
    before. *)
Theorem bulk_update_malformed_import (json_path : string) (json ps : pyval)
    (st : Session) :
  read_json json_path st.2 = Ok json ->
  py_get json "pages" = Ok ps ->
  truthy ps = true ->
  (pages st.1 = [] -> load_updated_annotaion_json json_path st = Returns true st)
  /\ (forall page rest ann anns,
        pages st.1 = page :: rest -> Pages.annotations page = ann :: anns ->
        (py_num ps <> None ->
         load_updated_annotaion_json json_path st = Raises TypeError st)
        /\ (forall first more,
              ps = PList (first :: more) ->
              (forall d, first ≠ PDict d) ->
              load_updated_annotaion_json json_path st = Raises AttributeError st)
        /\ (forall d more,
              ps = PList (PDict d :: more) ->
              d !! "annotations" = None ->
              load_updated_annotaion_json json_path st = Raises TypeError st)).
Proof.
  intros Hread Hget Ht. unfold load_updated_annotaion_json.
  rewrite Hread, Hget, Ht. simpl. split.
  - by intros ->.
  - intros page rest ann anns -> Hanns. simpl. rewrite Hanns. simpl.
    unfold scan_import. rewrite Hget. simpl. split; [|split].
    + intros Hnum. by destruct ps.
    + intros first more -> Hnot. simpl. unfold scan_page.
      destruct first; try done. by destruct (Hnot d).
    + intros d more -> Hnone. simpl. unfold scan_page. simpl. by rewrite Hnone.
Qed.

Lemma bulk_update_malformed_import_witness :
  load_updated_annotaion_json "updated.json" empty_form_session
  = Returns true empty_form_session
  /\ load_updated_annotaion_json "updated.json" (sample_session bare_page_import)
     = Raises TypeError (sample_session bare_page_import).
Proof.
  split.
  - pose proof (bulk_update_malformed_import "updated.json" numeric_pages_import
                  (PInt 7) empty_form_session) as H.
    specialize (H ltac:(vm_compute; reflexivity) ltac:(vm_compute; reflexivity)
                  ltac:(reflexivity)).
    apply (proj1 H). reflexivity.
  - pose proof (bulk_update_malformed_import "updated.json" bare_page_import
                  (PList [PDict {[ "page_number" := PInt 1 ]}])
                  (sample_session bare_page_import)) as H.
    specialize (H ltac:(vm_compute; reflexivity) ltac:(vm_compute; reflexivity)
                  ltac:(reflexivity)).
    eapply (proj2 H).
    + vm_compute. reflexivity.
    + reflexivity.
    + reflexivity.
    + vm_compute. reflexivity.
Defined.

(** X21: the page number of an update.  Once the handle is open, an update
    by id or by label whose page number is not a number ([None], a string, a
    list, a dict) raises [TypeError], and one whose page number is greater
    than the number of pages raises [IndexError]; in both cases no widget is
    looked up or changed. *)
Theorem update_page_number_errors (key : string)
    (v : UpdateField.t + gmap string pyval) (st st1 : Session) (d : fitz.Document) :
  ensure_open st = Returns d st1 ->
  (forall pn, py_num pn = None ->
     update_field_by_anotation_id_and_page_number key pn v st = Raises TypeError st1
     /\ update_field_by_label_and_page_number key pn v st = Raises TypeError st1)
  /\ (forall n, Z.of_nat (length (fitz.doc_pages d)) < n ->
        update_field_by_anotation_id_and_page_number key (PInt n) v st
        = Raises IndexError st1
        /\ update_field_by_label_and_page_number key (PInt n) v st
           = Raises IndexError st1).
Proof.
  intros Ho.
  pose proof (ensure_open_returns_open _ _ _ Ho) as Hc.
  unfold update_field_by_anotation_id_and_page_number,
    update_field_by_label_and_page_number, update_field. rewrite Ho.
  split.
  - intros pn Hpn. unfold page_index. by rewrite Hpn.
  - intros n Hn. unfold page_index. simpl. unfold fitz.getitem. rewrite Hc.
    destruct (Z.leb_spec (Z.of_nat (length (fitz.doc_pages d))) (n - 1)); [done|lia].
Qed.

Lemma update_page_number_errors_witness :
  let st := sample_session PNone in
  let st1 := state_of (ensure_open st) in
  update_field_by_anotation_id_and_page_number "f1_01" (PStr "1") (inr ∅) st
  = Raises TypeError st1
  /\ update_field_by_label_and_page_number "month" (PInt 3) (inr ∅) st
     = Raises IndexError st1.
Proof.
  intros st st1.
  pose proof (update_page_number_errors "f1_01" (inr ∅) st st1
                (fitz.mkDocument [fitz.GoodPage [sample_widget]; fitz.GoodPage []] false)
                ltac:(vm_compute; reflexivity)) as [H1 _].
  pose proof (update_page_number_errors "month" (inr ∅) st st1
                (fitz.mkDocument [fitz.GoodPage [sample_widget]; fitz.GoodPage []] false)
                ltac:(vm_compute; reflexivity)) as [_ H2].
  split.
  - apply (H1 (PStr "1")). reflexivity.
  - apply (H2 3). simpl. lia.
Defined.
